(** * hello_ar_c: the HelloArApplication frame loop and tap handler

    A shallow embedding of
    [samples/hello_ar_c/app/src/main/cpp/hello_ar_application.cc].

    The application sequences calls into the tracking SDK and into four
    renderers.  Neither is part of the file, so every call is recorded as an
    [Event] carrying the arguments the source passes and the values the callee
    hands back; the values handed back are read from a record that describes
    what the SDK answers during one invocation.  The member functions become
    computations in a small monad that threads the object's fields, collects
    the events and stops at a failed [CHECK]. *)

From Stdlib Require Import ZArith QArith List String Lia.
From stdpp Require Import base gmap sets list strings.

Local Open Scope Z_scope.

(** ** Values exchanged with the SDK *)

(** Pointers are addresses; [nullptr] is address zero. *)
Definition ptr := N.
Definition nullptr : ptr := 0%N.

(** [float] values are idealised as rationals: the application copies them,
    divides one byte by [255.0f] and compares nothing. *)
Definition float := Q.

(** Modelled from the spec: the SDK header [arcore_c_api.h], which declares
    the enumerations below, is missing; the spec treats the SDK as an opaque
    external dependency.  The application only compares an [ArStatus] with
    [AR_SUCCESS], so every other code is an [AR_ERROR]; of the other
    enumerations it names [AR_TRACKABLE_NOT_VALID], [AR_TRACKABLE_PLANE],
    [AR_TRACKING_STATE_TRACKING], [AR_TRACKING_STATE_STOPPED] and
    [AR_LIGHT_ESTIMATE_STATE_VALID]. *)
Inductive ArStatus :=
| AR_SUCCESS
| AR_ERROR (code : Z).

Inductive ArTrackableType :=
| AR_TRACKABLE_NOT_VALID
| AR_TRACKABLE_PLANE
| AR_TRACKABLE_POINT.

Inductive ArTrackingState :=
| AR_TRACKING_STATE_TRACKING
| AR_TRACKING_STATE_PAUSED
| AR_TRACKING_STATE_STOPPED.

Inductive ArLightEstimateState :=
| AR_LIGHT_ESTIMATE_STATE_NOT_VALID
| AR_LIGHT_ESTIMATE_STATE_VALID.

Global Instance ArStatus_eq_dec : EqDecision ArStatus.
Proof. solve_decision. Defined.
Global Instance ArTrackableType_eq_dec : EqDecision ArTrackableType.
Proof. solve_decision. Defined.
Global Instance ArTrackingState_eq_dec : EqDecision ArTrackingState.
Proof. solve_decision. Defined.
Global Instance ArLightEstimateState_eq_dec : EqDecision ArLightEstimateState.
Proof. solve_decision. Defined.

(** [glm::mat4]: the application receives matrices from the SDK, builds the
    diagonal matrix [glm::mat4(1.0f)] and forms one product. *)
Inductive mat4 :=
| mat4_diag (d : float)
| mat4_sdk (id : N)
| mat4_mul (a b : mat4).

(** [glm::vec3]. *)
Record vec3 := Vec3 { vx : float; vy : float; vz : float }.

Inductive GlConst :=
| GL_DEPTH_BUFFER_BIT | GL_COLOR_BUFFER_BIT
| GL_CULL_FACE | GL_DEPTH_TEST | GL_BLEND
| GL_SRC_ALPHA | GL_ONE_MINUS_SRC_ALPHA.

(** ** Events: one constructor per callee

    Output parameters come last.  [tracked_obj_set_insert] records the call
    [tracked_obj_set_.insert(anchor)]. *)
Inductive Event :=
| LOGI (msg : string)
| LOGE (msg : string)
| glViewport (x y width height : Z)
| glClearColor (r g b a : float)
| glClear (mask : list GlConst)
| glEnable (cap : GlConst)
| glBlendFunc (sfactor dfactor : GlConst)
(* session and configuration *)
| ArSession_create (env context : ptr) (st : ArStatus) (out_session : ptr)
| ArConfig_create (session : ptr) (out_config : ptr)
| ArSession_checkSupported (session config : ptr) (st : ArStatus)
| ArSession_configure (session config : ptr) (st : ArStatus)
| ArConfig_destroy (config : ptr)
| ArFrame_create (session : ptr) (out_frame : ptr)
| ArSession_destroy (session : ptr)
| ArFrame_destroy (frame : ptr)
| ArSession_pause (session : ptr)
| ArSession_resume (session : ptr) (st : ArStatus)
| ArSession_setDisplayGeometry (session : ptr) (rotation width height : Z)
| ArSession_setCameraTextureName (session : ptr) (texture_id : Z)
(* frame *)
| ArSession_update (session frame : ptr) (st : ArStatus)
| ArFrame_acquireCamera (session frame : ptr) (out_camera : ptr)
| ArCamera_getViewMatrix (session camera : ptr) (out_view : mat4)
| ArCamera_getProjectionMatrix (session camera : ptr) (near far : float)
                               (out_projection : mat4)
| ArCamera_release (camera : ptr)
| ArLightEstimate_create (session : ptr) (out_estimate : ptr)
| ArFrame_getLightEstimate (session frame estimate : ptr)
| ArLightEstimate_getState (session estimate : ptr)
                           (out_state : ArLightEstimateState)
| ArLightEstimate_getPixelIntensity (session estimate : ptr)
                                    (out_intensity : float)
| ArLightEstimate_destroy (estimate : ptr)
| ArAnchor_getTrackingState (session anchor : ptr) (out_state : ArTrackingState)
| GetTransformMatrixFromAnchor (session anchor : ptr) (out_model : mat4)
| ArAnchor_release (anchor : ptr)
| ArTrackableList_create (session : ptr) (out_list : ptr)
| ArSession_getAllTrackables (session : ptr) (filter : ArTrackableType)
                             (list : ptr)
| ArTrackableList_getSize (session list : ptr) (out_size : Z)
| ArTrackableList_acquireItem (session list : ptr) (index : Z)
                              (out_trackable : ptr)
| ArTrackable_getType (session trackable : ptr) (out_type : ArTrackableType)
| ArTrackable_release (trackable : ptr)
| ArTrackableList_destroy (list : ptr)
| ArFrame_acquirePointCloud (session frame : ptr) (st : ArStatus)
                            (out_cloud : ptr)
| ArPointCloud_release (cloud : ptr)
(* hit testing *)
| ArHitResultList_create (session : ptr) (out_list : ptr)
| ArFrame_hitTest (session frame : ptr) (x y : float) (list : ptr)
| ArHitResultList_getSize (session list : ptr) (out_size : Z)
| ArHitResult_create (session : ptr) (out_hit : ptr)
| ArHitResultList_getItem (session list : ptr) (index : Z) (hit : ptr)
| ArHitResult_acquireTrackable (session hit : ptr) (out_trackable : ptr)
| ArPose_create (session : ptr) (raw : ptr) (out_pose : ptr)
| ArHitResult_getHitPose (session hit pose : ptr)
| ArPlane_isPoseInPolygon (session plane pose : ptr) (out_in_polygon : Z)
| ArPose_destroy (pose : ptr)
| ArHitResult_acquireNewAnchor (session hit : ptr) (st : ArStatus)
                               (out_anchor : ptr)
| ArHitResult_destroy (hit : ptr)
| ArHitResultList_destroy (list : ptr)
(* renderers *)
| background_renderer_InitializeGlContent
| background_renderer_GetTextureId (out_id : Z)
| point_cloud_renderer_InitializeGlContent
| andy_renderer_InitializeGlContent (asset_manager : ptr) (obj png : string)
| plane_renderer_InitializeGlContent (asset_manager : ptr)
| background_renderer_Draw (session frame : ptr)
| andy_renderer_Draw (projection view model : mat4) (light_intensity : float)
| plane_renderer_Draw (projection view : mat4) (session plane : ptr)
                      (color : vec3)
| point_cloud_renderer_Draw (mvp : mat4) (session cloud : ptr)
(* members *)
| tracked_obj_set_insert (anchor : ptr).

(** A trace entry is an event together with the value of the loop variable
    [i] of the enclosing indexed [for] loop, if there is one. *)
Abbreviation Trace := (list (option Z * Event)).

Definition events (t : Trace) : list Event := map snd t.

(** The events emitted while the loop variable has value [i]. *)
Definition iteration (i : Z) (t : Trace) : list Event :=
  map snd (filter (λ e, fst e = Some i) t).

(** ** The object *)

(** Modelled from the spec: the class declaration, in
    [hello_ar_application.h], is missing; the members are typed after the way
    the source uses them.  [tracked_obj_set_] is iterated and receives
    [insert(anchor)]: a set of anchor pointers.  [plane_color_map_] is
    searched with [find] and receives [insert({plane, color})]: a map from
    plane pointers to colours. *)
Record HelloArApplication := {
  asset_manager_ : ptr;
  ar_session_ : ptr;
  ar_frame_ : ptr;
  tracked_obj_set_ : gset ptr;
  plane_color_map_ : gmap ptr vec3;
  plane_count_ : Z
}.

Definition set_ar_session_ (p : ptr) (a : HelloArApplication) :=
  {| asset_manager_ := asset_manager_ a; ar_session_ := p;
     ar_frame_ := ar_frame_ a; tracked_obj_set_ := tracked_obj_set_ a;
     plane_color_map_ := plane_color_map_ a; plane_count_ := plane_count_ a |}.

Definition set_ar_frame_ (p : ptr) (a : HelloArApplication) :=
  {| asset_manager_ := asset_manager_ a; ar_session_ := ar_session_ a;
     ar_frame_ := p; tracked_obj_set_ := tracked_obj_set_ a;
     plane_color_map_ := plane_color_map_ a; plane_count_ := plane_count_ a |}.

Definition set_tracked_obj_set_ (s : gset ptr) (a : HelloArApplication) :=
  {| asset_manager_ := asset_manager_ a; ar_session_ := ar_session_ a;
     ar_frame_ := ar_frame_ a; tracked_obj_set_ := s;
     plane_color_map_ := plane_color_map_ a; plane_count_ := plane_count_ a |}.

Definition set_plane_color_map_ (m : gmap ptr vec3) (a : HelloArApplication) :=
  {| asset_manager_ := asset_manager_ a; ar_session_ := ar_session_ a;
     ar_frame_ := ar_frame_ a; tracked_obj_set_ := tracked_obj_set_ a;
     plane_color_map_ := m; plane_count_ := plane_count_ a |}.

Definition set_plane_count_ (n : Z) (a : HelloArApplication) :=
  {| asset_manager_ := asset_manager_ a; ar_session_ := ar_session_ a;
     ar_frame_ := ar_frame_ a; tracked_obj_set_ := tracked_obj_set_ a;
     plane_color_map_ := plane_color_map_ a; plane_count_ := n |}.

(** ** The monad: object fields, trace, and the ways a call can stop *)

Inductive Result (A : Type) :=
| Ok (a : A)
| CheckFailed      (* a [CHECK] aborted the process *)
| OutOfBounds.     (* an unchecked array index left the array *)
Arguments Ok {A} a.
Arguments CheckFailed {A}.
Arguments OutOfBounds {A}.

Definition M (A : Type) : Type :=
  HelloArApplication → Result A * HelloArApplication * Trace.

Definition ret {A} (a : A) : M A := λ s, (Ok a, s, []).

Definition bind {A B} (m : M A) (k : A → M B) : M B := λ s,
  match m s with
  | (Ok a, s1, t1) =>
      match k a s1 with (r, s2, t2) => (r, s2, t1 ++ t2) end
  | (CheckFailed, s1, t1) => (CheckFailed, s1, t1)
  | (OutOfBounds, s1, t1) => (OutOfBounds, s1, t1)
  end.

Notation "x <- m ;; k" := (bind m (λ x, k))
  (at level 100, m at next level, right associativity).
Notation "m ;; k" := (bind m (λ _, k))
  (at level 100, right associativity).

Definition call (e : Event) : M unit := λ s, (Ok tt, s, [(None, e)]).

(** Modelled from the spec: the macro [CHECK], from [util.h], is missing; a
    failed check aborts the process. *)
Definition CHECK (b : bool) : M unit := λ s,
  if b then (Ok tt, s, []) else (CheckFailed, s, []).
Definition out_of_bounds {A} : M A := λ s, (OutOfBounds, s, []).
Definition this : M HelloArApplication := λ s, (Ok s, s, []).
Definition assign (f : HelloArApplication → HelloArApplication) : M unit :=
  λ s, (Ok tt, f s, []).
Definition when (b : bool) (m : M unit) : M unit := if b then m else ret tt.

(** Run [m] as the body of the loop iteration whose variable has value [i]. *)
Definition in_iteration {A} (i : Z) (m : M A) : M A := λ s,
  match m s with (r, s1, t) => (r, s1, map (λ e, (Some i, snd e)) t) end.

Definition result_of {A} (x : Result A * HelloArApplication * Trace) := x.1.1.
Definition object_of {A} (x : Result A * HelloArApplication * Trace) := x.1.2.
Definition trace_of {A} (x : Result A * HelloArApplication * Trace) := x.2.

Definition non_null (p : ptr) : bool := negb (N.eqb p nullptr).

(** ** Constructor *)

(** What the SDK answers while the constructor runs. *)
Record CreateSdk := {
  session_create_status : ArStatus;
  session_create_out : ptr;
  config_create_out : ptr;
  check_supported_status : ArStatus;
  configure_status : ArStatus;
  frame_create_out : ptr
}.

(** Modelled from the spec: the default member initialisers are in the
    missing header; before the constructor body runs the pointers are taken
    to be null and the containers are empty. *)
Definition member_init (asset_manager : ptr) : HelloArApplication :=
  {| asset_manager_ := asset_manager; ar_session_ := nullptr;
     ar_frame_ := nullptr; tracked_obj_set_ := ∅; plane_color_map_ := ∅;
     plane_count_ := 0 |}.

Definition constructor_body (w : CreateSdk) (env context : ptr) : M unit :=
  call (LOGI "OnCreate()") ;;
  call (ArSession_create env context (session_create_status w)
                         (session_create_out w)) ;;
  assign (set_ar_session_ (session_create_out w)) ;;
  CHECK (bool_decide (session_create_status w = AR_SUCCESS)) ;;
  o <- this ;;
  CHECK (non_null (ar_session_ o)) ;;
  let ar_config := config_create_out w in
  call (ArConfig_create (ar_session_ o) ar_config) ;;
  CHECK (non_null ar_config) ;;
  let status := check_supported_status w in
  call (ArSession_checkSupported (ar_session_ o) ar_config status) ;;
  CHECK (bool_decide (status = AR_SUCCESS)) ;;
  call (ArSession_configure (ar_session_ o) ar_config (configure_status w)) ;;
  CHECK (bool_decide (configure_status w = AR_SUCCESS)) ;;
  call (ArConfig_destroy ar_config) ;;
  call (ArFrame_create (ar_session_ o) (frame_create_out w)) ;;
  assign (set_ar_frame_ (frame_create_out w)) ;;
  o <- this ;;
  CHECK (non_null (ar_frame_ o)).

Definition HelloArApplication_new (w : CreateSdk)
    (asset_manager env context : ptr) :=
  constructor_body w env context (member_init asset_manager).

(** ** Remaining life-cycle members *)

Definition destructor : M unit :=
  o <- this ;;
  call (ArSession_destroy (ar_session_ o)) ;;
  call (ArFrame_destroy (ar_frame_ o)).

Definition OnPause : M unit :=
  call (LOGI "OnPause()") ;;
  o <- this ;;
  call (ArSession_pause (ar_session_ o)).

Definition OnResume (resume_status : ArStatus) : M unit :=
  call (LOGI "OnResume()") ;;
  o <- this ;;
  let status := resume_status in
  call (ArSession_resume (ar_session_ o) status) ;;
  CHECK (bool_decide (status = AR_SUCCESS)).

Definition OnSurfaceCreated (texture_id : Z) : M unit :=
  call (LOGI "OnSurfaceCreated()") ;;
  call background_renderer_InitializeGlContent ;;
  o <- this ;;
  call (background_renderer_GetTextureId texture_id) ;;
  call (ArSession_setCameraTextureName (ar_session_ o) texture_id) ;;
  call point_cloud_renderer_InitializeGlContent ;;
  call (andy_renderer_InitializeGlContent (asset_manager_ o)
                                          "andy.obj" "andy.png") ;;
  call (plane_renderer_InitializeGlContent (asset_manager_ o)).

Definition OnDisplayGeometryChanged (display_rotation width height : Z)
    : M unit :=
  call (LOGI "OnSurfaceChanged(%d, %d)") ;;
  call (glViewport 0 0 width height) ;;
  o <- this ;;
  call (ArSession_setDisplayGeometry (ar_session_ o) display_rotation
                                     width height).

(** ** Plane colours *)

Definition kPlaneColorRgbaSize : Z := 16.

Definition kPlaneColorRgba : list Z :=
  [ 0xFFFFFFFF; 0xF44336FF; 0xE91E63FF; 0x9C27B0FF; 0x673AB7FF; 0x3F51B5FF;
    0x2196F3FF; 0x03A9F4FF; 0x00BCD4FF; 0x009688FF; 0x4CAF50FF; 0x8BC34AFF;
    0xCDDC39FF; 0xFFEB3BFF; 0xFFC107FF; 0xFF9800FF ].

(** [std::array::operator[]] checks nothing: an index outside the array has
    no defined result. *)
Definition array_at (a : list Z) (i : Z) : option Z :=
  if i <? 0 then None else a !! Z.to_nat i.

(** Conversion of a [uint32_t] to [int32_t]: values from [2^31] up wrap to
    negative ones. *)
Definition to_int32 (v : Z) : Z :=
  let r := v mod 2 ^ 32 in if r <? 2 ^ 31 then r else r - 2 ^ 32.

(** [((colorRgba >> k) & 0xff) / 255.0f]; [>>] on a negative [int32_t] is the
    arithmetic shift, which is what [Z.shiftr] computes. *)
Definition color_channel (colorRgba : Z) (k : Z) : float :=
  Qmake (Z.land (Z.shiftr colorRgba k) 0xff) 255.

Definition color_of_rgba (rgba : Z) : vec3 :=
  let colorRgba := to_int32 rgba in
  Vec3 (color_channel colorRgba 24) (color_channel colorRgba 16)
       (color_channel colorRgba 8).

(** [rand] is the value [std::rand()] returned; [%] truncates. *)
Definition plane_color_index (rand : Z) : Z := Z.rem rand kPlaneColorRgbaSize.

Definition GetRandomPlaneColor (rand : Z) : option vec3 :=
  color_of_rgba <$> array_at kPlaneColorRgba (plane_color_index rand).

(** ** OnDrawFrame *)

(** What the SDK, the C library and the container of anchors answer during
    one [OnDrawFrame].  The range-[for] over [tracked_obj_set_] visits the
    anchors in the container's own order, which the language does not fix; it
    only guarantees that every element is visited exactly once.
    [tracked_obj_visit] is that order for a set with the given contents. *)
Record FrameSdk := {
  update_status : ArStatus;
  camera_out : ptr;
  view_matrix_out : mat4;
  projection_matrix_out : mat4;
  light_estimate_out : ptr;
  light_estimate_state_out : ArLightEstimateState;
  pixel_intensity_out : float;
  anchor_tracking_state : ptr → ArTrackingState;
  anchor_transform : ptr → mat4;
  tracked_obj_visit : gset ptr → list ptr;
  tracked_obj_visit_once : ∀ X, tracked_obj_visit X ≡ₚ elements X;
  plane_list_out : ptr;
  plane_list_size_out : Z;
  plane_item : Z → ptr;
  std_rand : nat → Z;            (* the n-th call of [std::rand()] *)
  point_cloud_status : ArStatus;
  point_cloud_out : ptr
}.

(** The range-[for] over [tracked_obj_set_]; [model_mat] is declared before
    the loop and carried through it. *)
Fixpoint andy_loop (w : FrameSdk) (projection_mat view_mat : mat4)
    (light_intensity : float) (model_mat : mat4) (objs : list ptr)
    : M unit :=
  match objs with
  | [] => ret tt
  | obj_iter :: rest =>
      o <- this ;;
      let tracking_state := anchor_tracking_state w obj_iter in
      call (ArAnchor_getTrackingState (ar_session_ o) obj_iter
                                      tracking_state) ;;
      if bool_decide (tracking_state = AR_TRACKING_STATE_TRACKING) then
        let model_mat := anchor_transform w obj_iter in
        call (GetTransformMatrixFromAnchor (ar_session_ o) obj_iter
                                           model_mat) ;;
        call (andy_renderer_Draw projection_mat view_mat model_mat
                                 light_intensity) ;;
        andy_loop w projection_mat view_mat light_intensity model_mat rest
      else
        andy_loop w projection_mat view_mat light_intensity model_mat rest
  end.

(** The body of the plane loop; [rands] counts the calls of [std::rand()]
    made so far and the body returns the new count. *)
Definition plane_body (w : FrameSdk) (projection_mat view_mat : mat4)
    (plane_list : ptr) (i : Z) (rands : nat) : M nat :=
  o <- this ;;
  let ar_trackable := plane_item w i in
  call (ArTrackableList_acquireItem (ar_session_ o) plane_list i
                                    ar_trackable) ;;
  let ar_plane := ar_trackable in          (* ArAsPlane *)
  cr <- match plane_color_map_ o !! ar_plane with
        | Some color => ret (color, rands)
        | None =>
            match GetRandomPlaneColor (std_rand w rands) with
            | Some color =>
                assign (λ a, set_plane_color_map_
                               (<[ar_plane := color]> (plane_color_map_ a)) a) ;;
                ret (color, S rands)
            | None => out_of_bounds
            end
        end ;;
  call (plane_renderer_Draw projection_mat view_mat (ar_session_ o) ar_plane
                            cr.1) ;;
  call (ArTrackable_release ar_trackable) ;;
  ret cr.2.

(** [for (int i = 0; i < plane_list_size; ++i)]: [n] iterations remain. *)
Fixpoint plane_loop (w : FrameSdk) (projection_mat view_mat : mat4)
    (plane_list : ptr) (i : Z) (n : nat) (rands : nat) : M unit :=
  match n with
  | O => ret tt
  | S n' =>
      rands' <- in_iteration i
                  (plane_body w projection_mat view_mat plane_list i rands) ;;
      plane_loop w projection_mat view_mat plane_list (i + 1) n' rands'
  end.

Definition OnDrawFrame (w : FrameSdk) : M unit :=
  call (glClearColor (9 # 10) (9 # 10) (9 # 10) 1%Q) ;;
  call (glClear [GL_DEPTH_BUFFER_BIT; GL_COLOR_BUFFER_BIT]) ;;
  call (glEnable GL_CULL_FACE) ;;
  call (glEnable GL_DEPTH_TEST) ;;
  call (glEnable GL_BLEND) ;;
  call (glBlendFunc GL_SRC_ALPHA GL_ONE_MINUS_SRC_ALPHA) ;;
  o <- this ;;
  call (ArSession_update (ar_session_ o) (ar_frame_ o) (update_status w)) ;;
  when (negb (bool_decide (update_status w = AR_SUCCESS)))
    (call (LOGE "HelloArApplication::OnDrawFrame ArSession_update error")) ;;
  let ar_camera := camera_out w in
  call (ArFrame_acquireCamera (ar_session_ o) (ar_frame_ o) ar_camera) ;;
  let view_mat := view_matrix_out w in
  let projection_mat := projection_matrix_out w in
  call (ArCamera_getViewMatrix (ar_session_ o) ar_camera view_mat) ;;
  call (ArCamera_getProjectionMatrix (ar_session_ o) ar_camera (1 # 10) 100%Q
                                     projection_mat) ;;
  call (ArCamera_release ar_camera) ;;
  call (background_renderer_Draw (ar_session_ o) (ar_frame_ o)) ;;
  let ar_light_estimate := light_estimate_out w in
  call (ArLightEstimate_create (ar_session_ o) ar_light_estimate) ;;
  call (ArFrame_getLightEstimate (ar_session_ o) (ar_frame_ o)
                                 ar_light_estimate) ;;
  let ar_light_estimate_state := light_estimate_state_out w in
  call (ArLightEstimate_getState (ar_session_ o) ar_light_estimate
                                 ar_light_estimate_state) ;;
  light_intensity <-
    (if bool_decide (ar_light_estimate_state = AR_LIGHT_ESTIMATE_STATE_VALID)
     then
       call (ArLightEstimate_getPixelIntensity (ar_session_ o)
               ar_light_estimate (pixel_intensity_out w)) ;;
       ret (pixel_intensity_out w)
     else ret (8 # 10)) ;;
  call (ArLightEstimate_destroy ar_light_estimate) ;;
  andy_loop w projection_mat view_mat light_intensity (mat4_diag 1%Q)
            (tracked_obj_visit w (tracked_obj_set_ o)) ;;
  let plane_list := plane_list_out w in
  call (ArTrackableList_create (ar_session_ o) plane_list) ;;
  CHECK (non_null plane_list) ;;
  let plane_tracked_type := AR_TRACKABLE_PLANE in
  call (ArSession_getAllTrackables (ar_session_ o) plane_tracked_type
                                   plane_list) ;;
  let plane_list_size := plane_list_size_out w in
  call (ArTrackableList_getSize (ar_session_ o) plane_list plane_list_size) ;;
  assign (set_plane_count_ plane_list_size) ;;
  plane_loop w projection_mat view_mat plane_list 0
             (Z.to_nat plane_list_size) 0 ;;
  call (ArTrackableList_destroy plane_list) ;;
  let point_cloud_status := point_cloud_status w in
  let ar_point_cloud := point_cloud_out w in
  call (ArFrame_acquirePointCloud (ar_session_ o) (ar_frame_ o)
                                  point_cloud_status ar_point_cloud) ;;
  when (bool_decide (point_cloud_status = AR_SUCCESS))
    (call (point_cloud_renderer_Draw (mat4_mul projection_mat view_mat)
                                     (ar_session_ o) ar_point_cloud) ;;
     call (ArPointCloud_release ar_point_cloud)).

(** ** OnTouched *)

(** What the SDK answers about one entry of the hit list. *)
Record HitSdk := {
  hit_result_out : ptr;
  hit_trackable_out : ptr;
  hit_trackable_type : ArTrackableType;
  hit_pose_out : ptr;
  in_polygon_out : Z;
  new_anchor_status : ArStatus;
  new_anchor_out : ptr;
  new_anchor_tracking_state : ArTrackingState
}.

(** What the SDK answers during one [OnTouched]. *)
Record TouchSdk := {
  hit_result_list_out : ptr;
  hit_result_list_size_out : Z;
  hit_item : Z → HitSdk
}.

(** How a loop body ends: it falls through or executes [continue], or it
    executes [return]. *)
Inductive Ctl := Next | Return.

Definition hit_body (w : TouchSdk) (hit_result_list : ptr) (i : Z) : M Ctl :=
  o <- this ;;
  let h := hit_item w i in
  let ar_hit_result := hit_result_out h in
  call (ArHitResult_create (ar_session_ o) ar_hit_result) ;;
  call (ArHitResultList_getItem (ar_session_ o) hit_result_list i
                                ar_hit_result) ;;
  if negb (non_null ar_hit_result) then
    call (LOGE "HelloArApplication::OnTouched ArHitResultList_getItem error") ;;
    ret Return
  else
  let ar_trackable := hit_trackable_out h in
  call (ArHitResult_acquireTrackable (ar_session_ o) ar_hit_result
                                     ar_trackable) ;;
  let ar_trackable_type := hit_trackable_type h in
  call (ArTrackable_getType (ar_session_ o) ar_trackable ar_trackable_type) ;;
  if negb (bool_decide (ar_trackable_type = AR_TRACKABLE_PLANE)) then
    call (ArTrackable_release ar_trackable) ;;
    ret Next
  else
  let ar_pose := hit_pose_out h in
  call (ArPose_create (ar_session_ o) nullptr ar_pose) ;;
  call (ArHitResult_getHitPose (ar_session_ o) ar_hit_result ar_pose) ;;
  let in_polygon := in_polygon_out h in
  let ar_plane := ar_trackable in          (* ArAsPlane *)
  call (ArPlane_isPoseInPolygon (ar_session_ o) ar_plane ar_pose in_polygon) ;;
  call (ArTrackable_release ar_trackable) ;;
  call (ArPose_destroy ar_pose) ;;
  if in_polygon =? 0 then
    ret Next
  else
  let anchor := new_anchor_out h in
  call (ArHitResult_acquireNewAnchor (ar_session_ o) ar_hit_result
                                     (new_anchor_status h) anchor) ;;
  if negb (bool_decide (new_anchor_status h = AR_SUCCESS)) then
    call (LOGE
      "HelloArApplication::OnTouched ArHitResult_acquireNewAnchor error") ;;
    ret Return
  else
  let tracking_state := new_anchor_tracking_state h in
  call (ArAnchor_getTrackingState (ar_session_ o) anchor tracking_state) ;;
  if negb (bool_decide (tracking_state = AR_TRACKING_STATE_TRACKING)) then
    call (ArAnchor_release anchor) ;;
    ret Next
  else
  assign (λ a, set_tracked_obj_set_ ({[anchor]} ∪ tracked_obj_set_ a) a) ;;
  call (tracked_obj_set_insert anchor) ;;
  call (ArHitResult_destroy ar_hit_result) ;;
  ret Next.

(** [for (int32_t i = 0; i < hit_result_list_size; ++i)]: [n] iterations
    remain. *)
Fixpoint hit_loop (w : TouchSdk) (hit_result_list : ptr) (i : Z) (n : nat)
    : M Ctl :=
  match n with
  | O => ret Next
  | S n' =>
      c <- in_iteration i (hit_body w hit_result_list i) ;;
      match c with
      | Return => ret Return
      | Next => hit_loop w hit_result_list (i + 1) n'
      end
  end.

Definition OnTouched (w : TouchSdk) (x y : float) : M unit :=
  o <- this ;;
  if non_null (ar_frame_ o) && non_null (ar_session_ o) then
    let hit_result_list := hit_result_list_out w in
    call (ArHitResultList_create (ar_session_ o) hit_result_list) ;;
    CHECK (non_null hit_result_list) ;;
    call (ArFrame_hitTest (ar_session_ o) (ar_frame_ o) x y hit_result_list) ;;
    let hit_result_list_size := hit_result_list_size_out w in
    call (ArHitResultList_getSize (ar_session_ o) hit_result_list
                                  hit_result_list_size) ;;
    c <- hit_loop w hit_result_list 0 (Z.to_nat hit_result_list_size) ;;
    match c with
    | Return => ret tt
    | Next => call (ArHitResultList_destroy hit_result_list)
    end
  else ret tt.

(** ** Acquire/release discipline

    A reference is a kind of tracking object and its address.  The null
    pointer refers to no object. *)
Inductive ObjKind :=
| KCamera | KLightEstimate | KTrackableList | KTrackable | KPointCloud
| KHitResultList | KHitResult | KPose | KAnchor | KConfig.

Global Instance ObjKind_eq_dec : EqDecision ObjKind.
Proof. solve_decision. Defined.

Definition Ref : Type := ObjKind * ptr.

(** The reference an event hands to the application, if any. *)
Definition acquired (e : Event) : option Ref :=
  match e with
  | ArConfig_create _ p => Some (KConfig, p)
  | ArFrame_acquireCamera _ _ p => Some (KCamera, p)
  | ArLightEstimate_create _ p => Some (KLightEstimate, p)
  | ArTrackableList_create _ p => Some (KTrackableList, p)
  | ArTrackableList_acquireItem _ _ _ p => Some (KTrackable, p)
  | ArFrame_acquirePointCloud _ _ AR_SUCCESS p => Some (KPointCloud, p)
  | ArHitResultList_create _ p => Some (KHitResultList, p)
  | ArHitResult_create _ p => Some (KHitResult, p)
  | ArHitResult_acquireTrackable _ _ p => Some (KTrackable, p)
  | ArPose_create _ _ p => Some (KPose, p)
  | ArHitResult_acquireNewAnchor _ _ AR_SUCCESS p => Some (KAnchor, p)
  | _ => None
  end.

(** The reference an event gives back, if any. *)
Definition released (e : Event) : option Ref :=
  match e with
  | ArConfig_destroy p => Some (KConfig, p)
  | ArCamera_release p => Some (KCamera, p)
  | ArLightEstimate_destroy p => Some (KLightEstimate, p)
  | ArTrackableList_destroy p => Some (KTrackableList, p)
  | ArTrackable_release p => Some (KTrackable, p)
  | ArPointCloud_release p => Some (KPointCloud, p)
  | ArHitResultList_destroy p => Some (KHitResultList, p)
  | ArHitResult_destroy p => Some (KHitResult, p)
  | ArPose_destroy p => Some (KPose, p)
  | ArAnchor_release p => Some (KAnchor, p)
  | _ => None
  end.

(** The tracking objects a renderer is fed. *)
Definition fed (e : Event) : list Ref :=
  match e with
  | plane_renderer_Draw _ _ _ plane _ => [(KTrackable, plane)]
  | point_cloud_renderer_Draw _ _ cloud => [(KPointCloud, cloud)]
  | _ => []
  end.

(** Remove one occurrence of [r]; [None] when there is none. *)
Fixpoint remove_one (r : Ref) (live : list Ref) : option (list Ref) :=
  match live with
  | [] => None
  | r' :: rest =>
      if decide (r = r') then Some rest
      else cons r' <$> remove_one r rest
  end.

Definition is_null (r : Ref) : bool := N.eqb r.2 nullptr.

Definition usable (live : list Ref) (r : Ref) : bool :=
  is_null r || bool_decide (r ∈ live).

(** Replays a sequence of events against the list of references currently
    held.  The result is [None] when a reference is given back that is not
    held, or a renderer is fed an object that is not held; otherwise it is the
    list of references held at the end. *)
Fixpoint held_after (live : list Ref) (t : list Event) : option (list Ref) :=
  match t with
  | [] => Some live
  | e :: rest =>
      if forallb (usable live) (fed e) then
        let live1 := match acquired e with
                     | Some r => if is_null r then live else r :: live
                     | None => live
                     end in
        match released e with
        | Some r =>
            if is_null r then held_after live1 rest
            else match remove_one r live1 with
                 | Some live2 => held_after live2 rest
                 | None => None
                 end
        | None => held_after live1 rest
        end
      else None
  end.

(** The anchors handed to [tracked_obj_set_] during a trace. *)
Definition retained (t : list Event) : list Ref :=
  omap (λ e, match e with
             | tracked_obj_set_insert a => Some (KAnchor, a)
             | _ => None
             end) t.

(** ** The life of one object

    The calls the activity makes on a constructed object, each with what the
    SDK answers during it.  A call that does not return ends the process. *)
Inductive Invocation :=
| DoPause
| DoResume (resume_status : ArStatus)
| DoSurfaceCreated (texture_id : Z)
| DoDisplayGeometryChanged (display_rotation width height : Z)
| DoDrawFrame (w : FrameSdk)
| DoTouched (w : TouchSdk) (x y : float).

Definition invoke (c : Invocation) : M unit :=
  match c with
  | DoPause => OnPause
  | DoResume st => OnResume st
  | DoSurfaceCreated id => OnSurfaceCreated id
  | DoDisplayGeometryChanged r wd ht => OnDisplayGeometryChanged r wd ht
  | DoDrawFrame w => OnDrawFrame w
  | DoTouched w x y => OnTouched w x y
  end.

(** The object after each call and the trace of that call, in order, up to
    and including the first call that does not return. *)
Fixpoint run (calls : list Invocation) (s : HelloArApplication)
    : list (HelloArApplication * Trace) :=
  match calls with
  | [] => []
  | c :: rest =>
      match invoke c s with
      | (Ok _, s1, t) => (s1, t) :: run rest s1
      | (_, s1, t) => [(s1, t)]
      end
  end.

(** The plane and colour of every [plane_renderer_.Draw] of a trace. *)
Definition plane_draws (t : Trace) : list (ptr * vec3) :=
  omap (λ e, match e.2 with
             | plane_renderer_Draw _ _ _ plane color => Some (plane, color)
             | _ => None
             end) t.

(** The arguments of every [andy_renderer_.Draw] of a trace. *)
Definition andy_draws (t : Trace) : list (mat4 * mat4 * mat4 * float) :=
  omap (λ e, match e.2 with
             | andy_renderer_Draw p v m l => Some (p, v, m, l)
             | _ => None
             end) t.

(** The anchors whose tracking state a trace queries, with the answers. *)
Definition anchor_queries (t : Trace) : list (ptr * ArTrackingState) :=
  omap (λ e, match e.2 with
             | ArAnchor_getTrackingState _ a st => Some (a, st)
             | _ => None
             end) t.

(** The rand values the C library may return: [std::rand()] is never
    negative. *)
Definition rand_in_range (w : FrameSdk) : Prop := ∀ n, 0 ≤ std_rand w n.

(** ** Closed forms: the anchor loop *)

Definition andy_events (w : FrameSdk) (session : ptr)
    (projection_mat view_mat : mat4) (light_intensity : float) (a : ptr)
    : Trace :=
  (None, ArAnchor_getTrackingState session a (anchor_tracking_state w a)) ::
  if bool_decide (anchor_tracking_state w a = AR_TRACKING_STATE_TRACKING)
  then [ (None, GetTransformMatrixFromAnchor session a (anchor_transform w a));
         (None, andy_renderer_Draw projection_mat view_mat
                                   (anchor_transform w a) light_intensity) ]
  else [].

(** The colours made from the entries of [kPlaneColorRgba]. *)
Definition palette : list vec3 := color_of_rgba <$> kPlaneColorRgba.


(** ** Closed forms: the plane loop *)

Definition plane_events (session : ptr) (P V : mat4) (plane_list : ptr)
    (i : Z) (plane : ptr) (color : vec3) : Trace :=
  [ (Some i, ArTrackableList_acquireItem session plane_list i plane);
    (Some i, plane_renderer_Draw P V session plane color);
    (Some i, ArTrackable_release plane) ].

(** The three ways one iteration can go: the plane has a colour already, it
    receives one, or the palette index is out of bounds. *)
Inductive plane_body_outcome (w : FrameSdk) (P V : mat4) (plane_list : ptr)
    (i : Z) (rands : nat) (s : HelloArApplication)
    : Result nat * HelloArApplication * Trace → Prop :=
| plane_known color :
    plane_color_map_ s !! plane_item w i = Some color →
    plane_body_outcome w P V plane_list i rands s
      (Ok rands, s,
       plane_events (ar_session_ s) P V plane_list i (plane_item w i) color)
| plane_new color :
    plane_color_map_ s !! plane_item w i = None →
    GetRandomPlaneColor (std_rand w rands) = Some color →
    plane_body_outcome w P V plane_list i rands s
      (Ok (S rands),
       set_plane_color_map_ (<[plane_item w i := color]> (plane_color_map_ s)) s,
       plane_events (ar_session_ s) P V plane_list i (plane_item w i) color)
| plane_index_out_of_bounds :
    plane_color_map_ s !! plane_item w i = None →
    GetRandomPlaneColor (std_rand w rands) = None →
    plane_body_outcome w P V plane_list i rands s
      (OutOfBounds, s,
       [ (Some i, ArTrackableList_acquireItem (ar_session_ s) plane_list i
                                              (plane_item w i)) ]).

Definition is_plane_event (e : Event) : bool :=
  match e with
  | ArTrackableList_create _ _ | ArSession_getAllTrackables _ _ _
  | ArTrackableList_getSize _ _ _ | ArTrackableList_acquireItem _ _ _ _
  | plane_renderer_Draw _ _ _ _ _ | ArTrackable_release _
  | ArTrackableList_destroy _ => true
  | _ => false
  end.

(** What the plane loop does to the object, to the trace and to the held
    references. *)
Record plane_loop_post (w : FrameSdk) (s : HelloArApplication)
    (x : Result unit * HelloArApplication * Trace) : Prop := {
  post_object :
    object_of x = set_plane_color_map_ (plane_color_map_ (object_of x)) s;
  post_grows : plane_color_map_ s ⊆ plane_color_map_ (object_of x);
  post_drawn : ∀ p c, (p, c) ∈ plane_draws (trace_of x) →
               plane_color_map_ (object_of x) !! p = Some c;
  post_origin : ∀ p c, plane_color_map_ (object_of x) !! p = Some c →
                plane_color_map_ s !! p = Some c ∨ c ∈ palette;
  post_no_check : result_of x ≠ CheckFailed;
  post_in_range : rand_in_range w → result_of x = Ok tt;
  post_events : forallb is_plane_event (events (trace_of x)) = true;
  post_held : ∀ live, ∃ live', held_after live (events (trace_of x)) = Some live'
              ∧ (result_of x = Ok tt → live' = live)
}.

(** ** Closed forms: OnDrawFrame *)

Definition frame_setup : Trace :=
  [ (None, glClearColor (9 # 10) (9 # 10) (9 # 10) 1%Q);
    (None, glClear [GL_DEPTH_BUFFER_BIT; GL_COLOR_BUFFER_BIT]);
    (None, glEnable GL_CULL_FACE);
    (None, glEnable GL_DEPTH_TEST);
    (None, glEnable GL_BLEND);
    (None, glBlendFunc GL_SRC_ALPHA GL_ONE_MINUS_SRC_ALPHA) ].

Definition frame_update (w : FrameSdk) (s : HelloArApplication) : Trace :=
  (None, ArSession_update (ar_session_ s) (ar_frame_ s) (update_status w)) ::
  if bool_decide (update_status w = AR_SUCCESS) then []
  else [ (None,
          LOGE "HelloArApplication::OnDrawFrame ArSession_update error") ].

Definition frame_camera (w : FrameSdk) (s : HelloArApplication) : Trace :=
  [ (None, ArFrame_acquireCamera (ar_session_ s) (ar_frame_ s) (camera_out w));
    (None, ArCamera_getViewMatrix (ar_session_ s) (camera_out w)
                                  (view_matrix_out w));
    (None, ArCamera_getProjectionMatrix (ar_session_ s) (camera_out w)
                                        (1 # 10) 100%Q
                                        (projection_matrix_out w));
    (None, ArCamera_release (camera_out w)) ].

Definition frame_background (s : HelloArApplication) : Trace :=
  [ (None, background_renderer_Draw (ar_session_ s) (ar_frame_ s)) ].

Definition frame_light_intensity (w : FrameSdk) : float :=
  if bool_decide (light_estimate_state_out w = AR_LIGHT_ESTIMATE_STATE_VALID)
  then pixel_intensity_out w else (8 # 10)%Q.

Definition frame_light (w : FrameSdk) (s : HelloArApplication) : Trace :=
  [ (None, ArLightEstimate_create (ar_session_ s) (light_estimate_out w));
    (None, ArFrame_getLightEstimate (ar_session_ s) (ar_frame_ s)
                                    (light_estimate_out w));
    (None, ArLightEstimate_getState (ar_session_ s) (light_estimate_out w)
                                    (light_estimate_state_out w)) ] ++
  (if bool_decide (light_estimate_state_out w = AR_LIGHT_ESTIMATE_STATE_VALID)
   then [ (None, ArLightEstimate_getPixelIntensity (ar_session_ s)
                   (light_estimate_out w) (pixel_intensity_out w)) ]
   else []) ++
  [ (None, ArLightEstimate_destroy (light_estimate_out w)) ].

Definition frame_andy (w : FrameSdk) (s : HelloArApplication) : Trace :=
  concat (map (andy_events w (ar_session_ s) (projection_matrix_out w)
                 (view_matrix_out w) (frame_light_intensity w))
              (tracked_obj_visit w (tracked_obj_set_ s))).

Definition frame_planes_open (w : FrameSdk) (s : HelloArApplication) : Trace :=
  [ (None, ArTrackableList_create (ar_session_ s) (plane_list_out w)) ].

Definition frame_planes_size (w : FrameSdk) (s : HelloArApplication) : Trace :=
  [ (None, ArSession_getAllTrackables (ar_session_ s) AR_TRACKABLE_PLANE
                                      (plane_list_out w));
    (None, ArTrackableList_getSize (ar_session_ s) (plane_list_out w)
                                   (plane_list_size_out w)) ].

Definition frame_planes_close (w : FrameSdk) : Trace :=
  [ (None, ArTrackableList_destroy (plane_list_out w)) ].

Definition frame_point_cloud (w : FrameSdk) (s : HelloArApplication) : Trace :=
  (None, ArFrame_acquirePointCloud (ar_session_ s) (ar_frame_ s)
                                   (point_cloud_status w) (point_cloud_out w)) ::
  if bool_decide (point_cloud_status w = AR_SUCCESS)
  then [ (None, point_cloud_renderer_Draw
                  (mat4_mul (projection_matrix_out w) (view_matrix_out w))
                  (ar_session_ s) (point_cloud_out w));
         (None, ArPointCloud_release (point_cloud_out w)) ]
  else [].

(** Everything up to the [CHECK] on the plane list. *)
Definition frame_before_planes (w : FrameSdk) (s : HelloArApplication)
    : Trace :=
  frame_setup ++ frame_update w s ++ frame_camera w s ++ frame_background s ++
  frame_light w s ++ frame_andy w s.

Definition frame_plane_loop (w : FrameSdk) (s : HelloArApplication) :=
  plane_loop w (projection_matrix_out w) (view_matrix_out w)
             (plane_list_out w) 0 (Z.to_nat (plane_list_size_out w)) 0
             (set_plane_count_ (plane_list_size_out w) s).

(** ** Closed forms: OnTouched *)

(** The events of one iteration of the hit loop. *)
Definition hit_events (session hit_result_list : ptr) (i : Z) (h : HitSdk)
    : list Event :=
  [ ArHitResult_create session (hit_result_out h);
    ArHitResultList_getItem session hit_result_list i (hit_result_out h) ] ++
  if negb (non_null (hit_result_out h)) then
    [ LOGE "HelloArApplication::OnTouched ArHitResultList_getItem error" ]
  else
  [ ArHitResult_acquireTrackable session (hit_result_out h)
                                 (hit_trackable_out h);
    ArTrackable_getType session (hit_trackable_out h) (hit_trackable_type h) ]
  ++
  if negb (bool_decide (hit_trackable_type h = AR_TRACKABLE_PLANE)) then
    [ ArTrackable_release (hit_trackable_out h) ]
  else
  [ ArPose_create session nullptr (hit_pose_out h);
    ArHitResult_getHitPose session (hit_result_out h) (hit_pose_out h);
    ArPlane_isPoseInPolygon session (hit_trackable_out h) (hit_pose_out h)
                            (in_polygon_out h);
    ArTrackable_release (hit_trackable_out h);
    ArPose_destroy (hit_pose_out h) ] ++
  if in_polygon_out h =? 0 then []
  else
  [ ArHitResult_acquireNewAnchor session (hit_result_out h)
                                 (new_anchor_status h) (new_anchor_out h) ] ++
  if negb (bool_decide (new_anchor_status h = AR_SUCCESS)) then
    [ LOGE "HelloArApplication::OnTouched ArHitResult_acquireNewAnchor error" ]
  else
  [ ArAnchor_getTrackingState session (new_anchor_out h)
                              (new_anchor_tracking_state h) ] ++
  if negb (bool_decide
             (new_anchor_tracking_state h = AR_TRACKING_STATE_TRACKING)) then
    [ ArAnchor_release (new_anchor_out h) ]
  else
  [ tracked_obj_set_insert (new_anchor_out h);
    ArHitResult_destroy (hit_result_out h) ].

(** The iteration ends in [return]. *)
Definition hit_returns (h : HitSdk) : bool :=
  negb (non_null (hit_result_out h)) ||
  (bool_decide (hit_trackable_type h = AR_TRACKABLE_PLANE) &&
   negb (in_polygon_out h =? 0) &&
   negb (bool_decide (new_anchor_status h = AR_SUCCESS))).

(** The iteration reaches [tracked_obj_set_.insert(anchor)]. *)
Definition hit_places (h : HitSdk) : bool :=
  non_null (hit_result_out h) &&
  bool_decide (hit_trackable_type h = AR_TRACKABLE_PLANE) &&
  negb (in_polygon_out h =? 0) &&
  bool_decide (new_anchor_status h = AR_SUCCESS) &&
  bool_decide (new_anchor_tracking_state h = AR_TRACKING_STATE_TRACKING).

Definition after_hit (h : HitSdk) (s : HelloArApplication)
    : HelloArApplication :=
  if hit_places h
  then set_tracked_obj_set_ ({[new_anchor_out h]} ∪ tracked_obj_set_ s) s
  else s.

(** What the hit loop leaves behind. *)
Record hit_loop_post (w : TouchSdk) (hl : ptr) (i0 : Z) (n : nat)
    (s : HelloArApplication) (x : Result Ctl * HelloArApplication * Trace)
    : Prop := {
  hit_returns_normally : ∃ c, result_of x = Ok c;
  hit_session : ar_session_ (object_of x) = ar_session_ s;
  hit_frame : ar_frame_ (object_of x) = ar_frame_ s;
  hit_colors : plane_color_map_ (object_of x) = plane_color_map_ s;
  hit_count : plane_count_ (object_of x) = plane_count_ s;
  hit_no_plane_draws : plane_draws (trace_of x) = [];
  hit_outside : ∀ i, ¬ (i0 ≤ i < i0 + Z.of_nat n) →
                iteration i (trace_of x) = [];
  hit_inside : ∀ i, iteration i (trace_of x) = [] ∨
               iteration i (trace_of x) =
               hit_events (ar_session_ s) hl i (hit_item w i);
  hit_set : ∀ a, a ∈ tracked_obj_set_ (object_of x) ↔
            a ∈ tracked_obj_set_ s ∨
            ∃ i, In (tracked_obj_set_insert a) (iteration i (trace_of x))
}.

Definition touch_open (w : TouchSdk) (x y : float) (s : HelloArApplication)
    : Trace :=
  [ (None, ArHitResultList_create (ar_session_ s) (hit_result_list_out w));
    (None, ArFrame_hitTest (ar_session_ s) (ar_frame_ s) x y
                           (hit_result_list_out w));
    (None, ArHitResultList_getSize (ar_session_ s) (hit_result_list_out w)
                                   (hit_result_list_size_out w)) ].

Definition touch_hit_loop (w : TouchSdk) (s : HelloArApplication) :=
  hit_loop w (hit_result_list_out w) 0
           (Z.to_nat (hit_result_list_size_out w)) s.

(** ** Vocabulary of the statements *)

(** Every answer the constructor checks is the good one. *)
Definition sdk_succeeds (w : CreateSdk) : Prop :=
  session_create_status w = AR_SUCCESS ∧ session_create_out w ≠ nullptr ∧
  config_create_out w ≠ nullptr ∧ check_supported_status w = AR_SUCCESS ∧
  configure_status w = AR_SUCCESS ∧ frame_create_out w ≠ nullptr.

(** The calls of a constructor run that reaches its end. *)
Definition constructor_calls (w : CreateSdk) (env context : ptr)
    : list Event :=
  [ LOGI "OnCreate()";
    ArSession_create env context (session_create_status w)
                     (session_create_out w);
    ArConfig_create (session_create_out w) (config_create_out w);
    ArSession_checkSupported (session_create_out w) (config_create_out w)
                             (check_supported_status w);
    ArSession_configure (session_create_out w) (config_create_out w)
                        (configure_status w);
    ArConfig_destroy (config_create_out w);
    ArFrame_create (session_create_out w) (frame_create_out w) ].

(** The phases of a frame, by the calls that belong to them. *)
Definition is_andy_event (e : Event) : bool :=
  match e with
  | ArAnchor_getTrackingState _ _ _ | GetTransformMatrixFromAnchor _ _ _
  | andy_renderer_Draw _ _ _ _ => true
  | _ => false
  end.

Definition is_point_cloud_event (e : Event) : bool :=
  match e with
  | ArFrame_acquirePointCloud _ _ _ _ | point_cloud_renderer_Draw _ _ _
  | ArPointCloud_release _ => true
  | _ => false
  end.

(** The SDK reports anchor [a] as tracking during this frame. *)
Definition tracking (w : FrameSdk) (a : ptr) : Prop :=
  anchor_tracking_state w a = AR_TRACKING_STATE_TRACKING.

Global Instance tracking_dec w a : Decision (tracking w a).
Proof. unfold tracking. apply _. Defined.

(** Events that neither hand out nor take back a reference, and feed no
    renderer a tracking object. *)
Definition is_neutral (e : Event) : bool :=
  match acquired e, released e, fed e with
  | None, None, [] => true
  | _, _, _ => false
  end.

Definition is_gl_event (e : Event) : bool :=
  match e with
  | glViewport _ _ _ _ | glClearColor _ _ _ _ | glClear _ | glEnable _
  | glBlendFunc _ _ => true
  | _ => false
  end.

(** The same answers, except for the status of [ArSession_update]. *)
Definition with_update_status (st : ArStatus) (w : FrameSdk) : FrameSdk :=
  {| update_status := st;
     camera_out := camera_out w;
     view_matrix_out := view_matrix_out w;
     projection_matrix_out := projection_matrix_out w;
     light_estimate_out := light_estimate_out w;
     light_estimate_state_out := light_estimate_state_out w;
     pixel_intensity_out := pixel_intensity_out w;
     anchor_tracking_state := anchor_tracking_state w;
     anchor_transform := anchor_transform w;
     tracked_obj_visit := tracked_obj_visit w;
     tracked_obj_visit_once := tracked_obj_visit_once w;
     plane_list_out := plane_list_out w;
     plane_list_size_out := plane_list_size_out w;
     plane_item := plane_item w;
     std_rand := std_rand w;
     point_cloud_status := point_cloud_status w;
     point_cloud_out := point_cloud_out w |}.



(** ** Vocabulary of the further properties *)

(** The [uint32_t] whose bytes, from the most significant, are [r], [g], [b]
    and [a]. *)
Definition rgba_of_bytes (r g b a : Z) : Z :=
  r * 2 ^ 24 + g * 2 ^ 16 + b * 2 ^ 8 + a.

Definition is_byte (v : Z) : Prop := 0 ≤ v < 256.

(** The values the loop variable takes in [n] iterations from [i]. *)
Fixpoint indices (i : Z) (n : nat) : list Z :=
  match n with
  | O => []
  | S n' => i :: indices (i + 1) n'
  end.

(** The hit loop started at [i0] with [n] iterations to go gets as far as
    iteration [i]: no earlier iteration ends in [return]. *)
Definition reached (w : TouchSdk) (i0 : Z) (n : nat) (i : Z) : Prop :=
  i0 ≤ i < i0 + Z.of_nat n ∧
  ∀ j, i0 ≤ j < i → hit_returns (hit_item w j) = false.

(** The answers on which a call on the object ends in a failed [CHECK]. *)
Definition aborts (c : Invocation) (s : HelloArApplication) : Prop :=
  match c with
  | DoResume status => status ≠ AR_SUCCESS
  | DoDrawFrame w => plane_list_out w = nullptr
  | DoTouched w _ _ =>
      ar_frame_ s ≠ nullptr ∧ ar_session_ s ≠ nullptr ∧
      hit_result_list_out w = nullptr
  | DoPause | DoSurfaceCreated _ | DoDisplayGeometryChanged _ _ _ => False
  end.

(** The kinds of reference [OnTouched] can still hold when it returns. *)
Definition outlives_touch (t : list Event) (r : Ref) : Prop :=
  r.1 = KHitResult ∨ r.1 = KHitResultList ∨
  (r.1 = KAnchor ∧ r ∈ retained t).

(** The references one iteration of the hit loop leaves held: nothing when
    the hit result is null, the new anchor when it is handed to
    [tracked_obj_set_], and the hit result otherwise. *)
Definition left_by_hit (h : HitSdk) : list Ref :=
  if negb (non_null (hit_result_out h)) then []
  else if hit_places h then
    if non_null (new_anchor_out h) then [(KAnchor, new_anchor_out h)] else []
  else [(KHitResult, hit_result_out h)].

(** ** Sample inputs *)

(** A device on which every call of the constructor succeeds. *)
Definition good_create : CreateSdk :=
  {| session_create_status := AR_SUCCESS; session_create_out := 1%N;
     config_create_out := 3%N; check_supported_status := AR_SUCCESS;
     configure_status := AR_SUCCESS; frame_create_out := 2%N |}.

(** The object a successful constructor leaves. *)
Definition ready_app : HelloArApplication :=
  object_of (HelloArApplication_new good_create 9%N 7%N 8%N).

(** A hit on a plane, inside its polygon, whose new anchor is tracking. *)
Definition plane_hit (hit trackable pose anchor : ptr) : HitSdk :=
  {| hit_result_out := hit; hit_trackable_out := trackable;
     hit_trackable_type := AR_TRACKABLE_PLANE; hit_pose_out := pose;
     in_polygon_out := 1; new_anchor_status := AR_SUCCESS;
     new_anchor_out := anchor;
     new_anchor_tracking_state := AR_TRACKING_STATE_TRACKING |}.

(** A hit on a feature point. *)
Definition point_hit (hit trackable : ptr) : HitSdk :=
  {| hit_result_out := hit; hit_trackable_out := trackable;
     hit_trackable_type := AR_TRACKABLE_POINT; hit_pose_out := nullptr;
     in_polygon_out := 0; new_anchor_status := AR_ERROR (-1);
     new_anchor_out := nullptr;
     new_anchor_tracking_state := AR_TRACKING_STATE_STOPPED |}.

(** The tap ray crosses two planes, one behind the other. *)
Definition two_plane_hits : TouchSdk :=
  {| hit_result_list_out := 50%N; hit_result_list_size_out := 2;
     hit_item := λ i, if i =? 0 then plane_hit 51%N 61%N 71%N 81%N
                      else plane_hit 52%N 62%N 72%N 82%N |}.

(** The tap ray meets one feature point and no plane. *)
Definition one_point_hit : TouchSdk :=
  {| hit_result_list_out := 50%N; hit_result_list_size_out := 1;
     hit_item := λ _, point_hit 51%N 61%N |}.


(** The tap ray meets nothing. *)
Definition no_hits : TouchSdk :=
  {| hit_result_list_out := 50%N; hit_result_list_size_out := 0;
     hit_item := λ _, point_hit 51%N 61%N |}.

(** A frame over one plane and one feature cloud, in which the update
    fails. *)
Definition sample_frame : FrameSdk :=
  {| update_status := AR_ERROR (-5);
     camera_out := 10%N;
     view_matrix_out := mat4_sdk 1;
     projection_matrix_out := mat4_sdk 2;
     light_estimate_out := 11%N;
     light_estimate_state_out := AR_LIGHT_ESTIMATE_STATE_VALID;
     pixel_intensity_out := (1 # 2)%Q;
     anchor_tracking_state := λ _, AR_TRACKING_STATE_TRACKING;
     anchor_transform := λ a, mat4_sdk (100 + a);
     tracked_obj_visit := λ X, reverse (elements X);
     tracked_obj_visit_once := λ X, reverse_Permutation (elements X);
     plane_list_out := 12%N;
     plane_list_size_out := 1;
     plane_item := λ _, 61%N;
     std_rand := λ n, 17 + Z.of_nat n;
     point_cloud_status := AR_SUCCESS;
     point_cloud_out := 13%N |}.

(** * Properties *)

(** ** Running the monad *)

Lemma run_call {A} (e : Event) (k : unit → M A) s :
  bind (call e) k s =
  match k tt s with (r, s2, t2) => (r, s2, (None, e) :: t2) end.
Proof. reflexivity. Qed.

Lemma run_this {A} (k : HelloArApplication → M A) s :
  bind this k s = k s s.
Proof. unfold bind, this. destruct (k s s) as [[r s2] t2]. reflexivity. Qed.

Lemma run_assign {A} f (k : unit → M A) s :
  bind (assign f) k s = k tt (f s).
Proof. unfold bind, assign. destruct (k tt (f s)) as [[r s2] t2]. reflexivity. Qed.

Lemma run_ret {A B} (a : A) (k : A → M B) s :
  bind (ret a) k s = k a s.
Proof. unfold bind, ret. destruct (k a s) as [[r s2] t2]. reflexivity. Qed.

Lemma run_CHECK_true {A} (k : unit → M A) s :
  bind (CHECK true) k s = k tt s.
Proof. unfold bind, CHECK. destruct (k tt s) as [[r s2] t2]. reflexivity. Qed.

Lemma run_CHECK_false {A} (k : unit → M A) s :
  bind (CHECK false) k s = (CheckFailed, s, []).
Proof. reflexivity. Qed.

Lemma bind_assoc {A B C} (m : M A) (k : A → M B) (k' : B → M C) s :
  bind (bind m k) k' s = bind m (λ a, bind (k a) k') s.
Proof.
  unfold bind. destruct (m s) as [[[a| |] s1] t1]; try reflexivity.
  destruct (k a s1) as [[[b| |] s2] t2]; try reflexivity.
  destruct (k' b s2) as [[r s3] t3]. by rewrite app_assoc.
Qed.

Lemma run_bind_ok {A B} (m : M A) (k : A → M B) s a s1 t1 :
  m s = (Ok a, s1, t1) →
  bind m k s = match k a s1 with (r, s2, t2) => (r, s2, t1 ++ t2) end.
Proof. unfold bind. by intros ->. Qed.

Lemma run_bind_check {A B} (m : M A) (k : A → M B) s s1 t1 :
  m s = (CheckFailed, s1, t1) → bind m k s = (CheckFailed, s1, t1).
Proof. unfold bind. by intros ->. Qed.

Lemma run_bind_bounds {A B} (m : M A) (k : A → M B) s s1 t1 :
  m s = (OutOfBounds, s1, t1) → bind m k s = (OutOfBounds, s1, t1).
Proof. unfold bind. by intros ->. Qed.

(** ** The anchor loop in closed form *)

Lemma andy_loop_run w P V L objs : ∀ mm s,
  andy_loop w P V L mm objs s =
  (Ok tt, s, concat (map (andy_events w (ar_session_ s) P V L) objs)).
Proof.
  induction objs as [|a objs IH]; intros mm s; [reflexivity|].
  cbn [andy_loop map concat]. rewrite run_this, run_call.
  unfold andy_events at 1.
  destruct (bool_decide _).
  - rewrite !run_call, IH. reflexivity.
  - rewrite IH. reflexivity.
Qed.

(** ** Replaying traces *)

Lemma held_after_app t1 : ∀ live t2,
  held_after live (t1 ++ t2) = held_after live t1 ≫= λ live', held_after live' t2.
Proof.
  induction t1 as [|e t1 IH]; intros live t2; [reflexivity|].
  cbn [app held_after].
  destruct (forallb _ _); [|reflexivity].
  destruct (released e) as [r|]; [|apply IH].
  destruct (is_null r); [apply IH|].
  destruct (remove_one r _); [apply IH|reflexivity].
Qed.

Lemma remove_one_head r live : remove_one r (r :: live) = Some live.
Proof. cbn. by rewrite decide_True. Qed.

(** Acquiring an object, feeding it to a renderer and giving it back leaves
    the held references as they were. *)
Lemma held_after_bracket live acq use rel r :
  acquired acq = Some r → released acq = None →
  acquired use = None → released use = None → fed use = [r] →
  acquired rel = None → released rel = Some r → fed acq = [] → fed rel = [] →
  held_after live [acq; use; rel] = Some live.
Proof.
  intros Ha Hra Hu Hru Hf Hr Hrr Hfa Hfr. cbn [held_after].
  rewrite Ha, Hra, Hu, Hru, Hf, Hr, Hrr, Hfa, Hfr. cbn [forallb].
  unfold usable. destruct (is_null r) eqn:Hn; cbn [orb andb]; [reflexivity|].
  rewrite bool_decide_eq_true_2 by left. cbn [andb].
  by rewrite remove_one_head.
Qed.

(** ** The palette *)

Lemma plane_color_index_in_bounds rand :
  0 ≤ rand → 0 ≤ plane_color_index rand < kPlaneColorRgbaSize.
Proof.
  intros H. unfold plane_color_index, kPlaneColorRgbaSize.
  rewrite Z.rem_mod_nonneg by lia. apply Z.mod_pos_bound. lia.
Qed.

Lemma array_at_in_bounds (a : list Z) i :
  0 ≤ i < Z.of_nat (length a) → ∃ v, array_at a i = Some v ∧ v ∈ a.
Proof.
  intros H. unfold array_at.
  destruct (Z.ltb_spec i 0); [lia|].
  destruct (lookup_lt_is_Some_2 a (Z.to_nat i)) as [v Hv]; [lia|].
  exists v. split; [done|]. by eapply list_elem_of_lookup_2.
Qed.

Lemma GetRandomPlaneColor_in_range rand :
  0 ≤ rand → ∃ c, GetRandomPlaneColor rand = Some c ∧ c ∈ palette.
Proof.
  intros H. unfold GetRandomPlaneColor.
  destruct (array_at_in_bounds kPlaneColorRgba (plane_color_index rand))
    as (v & Hv & Hin).
  { apply plane_color_index_in_bounds in H. exact H. }
  rewrite Hv. exists (color_of_rgba v). split; [done|].
  unfold palette. by apply list_elem_of_fmap_2.
Qed.

Lemma GetRandomPlaneColor_palette rand c :
  GetRandomPlaneColor rand = Some c → c ∈ palette.
Proof.
  unfold GetRandomPlaneColor, array_at. intros H.
  destruct (plane_color_index rand <? 0); [done|].
  destruct (kPlaneColorRgba !! _) as [v|] eqn:Hv; [|done].
  injection H as <-. unfold palette. apply list_elem_of_fmap_2.
  by eapply list_elem_of_lookup_2.
Qed.



(** ** The plane loop *)

Lemma plane_body_run w P V pl i rands s :
  plane_body_outcome w P V pl i rands s
    (in_iteration i (plane_body w P V pl i rands) s).
Proof.
  unfold in_iteration, plane_body. rewrite run_this, run_call.
  destruct (plane_color_map_ s !! plane_item w i) as [c|] eqn:Hm.
  - rewrite run_ret, !run_call. cbn. by apply plane_known.
  - destruct (GetRandomPlaneColor (std_rand w rands)) as [c|] eqn:Hr.
    + rewrite bind_assoc, run_assign, run_ret, !run_call. cbn.
      by apply plane_new.
    + cbn. by apply plane_index_out_of_bounds.
Qed.

Lemma plane_draws_app t1 t2 :
  plane_draws (t1 ++ t2) = plane_draws t1 ++ plane_draws t2.
Proof. apply omap_app. Qed.

Lemma events_app t1 t2 : events (t1 ++ t2) = events t1 ++ events t2.
Proof. apply map_app. Qed.

Ltac projections :=
  unfold object_of, trace_of, result_of in *; cbn [fst snd] in *.

Lemma plane_draws_plane_events se P V pl i p c :
  plane_draws (plane_events se P V pl i p c) = [(p, c)].
Proof. reflexivity. Qed.

Lemma plane_events_are_plane_events se P V pl i p c :
  forallb is_plane_event (events (plane_events se P V pl i p c)) = true.
Proof. reflexivity. Qed.

Lemma held_after_plane_events live se P V pl i p c :
  held_after live (events (plane_events se P V pl i p c)) = Some live.
Proof. by apply held_after_bracket with (r := (KTrackable, p)). Qed.

Lemma plane_loop_spec w P V pl n : ∀ i rands s,
  plane_loop_post w s (plane_loop w P V pl i n rands s).
Proof.
  induction n as [|n IH]; intros i rands s.
  { cbn [plane_loop]. unfold ret. split; projections; try done.
    - by destruct s.
    - intros p c H. by apply elem_of_nil in H.
    - auto.
    - eauto. }
  cbn [plane_loop]. unfold bind at 1.
  destruct (plane_body_run w P V pl i rands s) as [c Hm|c Hm Hr|Hm Hr].
  - specialize (IH (i + 1) rands s).
    destruct (plane_loop w P V pl (i + 1) n rands s) as [[r s'] t].
    destruct IH as [Ho Hg Hd Hor Hnc Hir He Hh]. projections.
    split; projections; try done.
    + intros p c'. rewrite plane_draws_app, plane_draws_plane_events.
      intros [H|H]%elem_of_app; [|auto].
      apply list_elem_of_singleton in H. injection H as -> ->.
      by eapply lookup_weaken.
    + intros live.
      rewrite events_app, held_after_app, held_after_plane_events.
      apply Hh.
  - set (s1 := set_plane_color_map_ _ s) in *.
    specialize (IH (i + 1) (S rands) s1).
    destruct (plane_loop w P V pl (i + 1) n (S rands) s1) as [[r s'] t].
    destruct IH as [Ho Hg Hd Hor Hnc Hir He Hh]. projections.
    assert (plane_color_map_ s ⊆ plane_color_map_ s1) as Hsub.
    { cbn. by apply insert_subseteq. }
    split; projections; try done.
    + by etrans.
    + intros p c'. rewrite plane_draws_app, plane_draws_plane_events.
      intros [H|H]%elem_of_app; [|auto].
      apply list_elem_of_singleton in H. injection H as -> ->.
      eapply lookup_weaken; [|done]. cbn. apply lookup_insert_eq.
    + intros p c' H. destruct (Hor p c' H) as [H1|H1]; [|by right].
      cbn in H1. destruct (decide (plane_item w i = p)) as [Heq|Hne].
      * subst p. rewrite lookup_insert_eq in H1. injection H1 as <-.
        right. by eapply GetRandomPlaneColor_palette.
      * rewrite lookup_insert_ne in H1 by done. by left.
    + intros live.
      rewrite events_app, held_after_app, held_after_plane_events.
      apply Hh.
  - split; projections; try done.
    + by destruct s.
    + intros p c H. by apply elem_of_nil in H.
    + auto.
    + intros Hrange. specialize (Hrange rands).
      apply GetRandomPlaneColor_in_range in Hrange as (c & Hc & _). congruence.
    + intros live. cbn. eexists. split; [reflexivity|done].
Qed.

(** ** OnDrawFrame in closed form *)

Lemma OnDrawFrame_run w s :
  OnDrawFrame w s =
  if non_null (plane_list_out w) then
    match frame_plane_loop w s with
    | (Ok _, s1, planes) =>
        (Ok tt, s1,
         frame_before_planes w s ++ frame_planes_open w s ++
         frame_planes_size w s ++ planes ++ frame_planes_close w ++
         frame_point_cloud w s)
    | (CheckFailed, s1, planes) =>
        (CheckFailed, s1,
         frame_before_planes w s ++ frame_planes_open w s ++
         frame_planes_size w s ++ planes)
    | (OutOfBounds, s1, planes) =>
        (OutOfBounds, s1,
         frame_before_planes w s ++ frame_planes_open w s ++
         frame_planes_size w s ++ planes)
    end
  else (CheckFailed, s, frame_before_planes w s ++ frame_planes_open w s).
Proof.
  unfold OnDrawFrame, frame_before_planes, frame_plane_loop.
  rewrite !run_call, run_this, run_call.
  assert (∀ A (k : unit → M A) b m s0,
    bind (when b m) k s0 = if b then bind m k s0 else k tt s0) as Hwhen.
  { intros A k [] m s0; cbn [when]; [reflexivity|apply run_ret]. }
  rewrite Hwhen. unfold frame_andy, frame_update, frame_light,
    frame_light_intensity, frame_point_cloud.
  assert (∀ (k : unit → M unit) s0,
    bind (plane_loop w (projection_matrix_out w) (view_matrix_out w)
            (plane_list_out w) 0 (Z.to_nat (plane_list_size_out w)) 0) k s0 =
    match plane_loop w (projection_matrix_out w) (view_matrix_out w)
            (plane_list_out w) 0 (Z.to_nat (plane_list_size_out w)) 0 s0 with
    | (Ok _, s1, t1) =>
        match k tt s1 with (r, s2, t2) => (r, s2, t1 ++ t2) end
    | other => other
    end) as Hloop.
  { intros k s0. unfold bind.
    by destruct (plane_loop _ _ _ _ _ _ _ _) as [[[[]| |] s1] planes]. }
  destruct (bool_decide (update_status w = AR_SUCCESS));
    cbn [negb]; rewrite ?run_call;
    destruct (bool_decide (light_estimate_state_out w = _));
    rewrite ?bind_assoc, ?run_call, run_ret, run_call;
    (erewrite run_bind_ok by apply andy_loop_run);
    rewrite run_call;
    destruct (non_null (plane_list_out w));
    rewrite ?run_CHECK_true, ?run_CHECK_false, ?run_call, ?run_assign, ?Hloop;
    try destruct (plane_loop _ _ _ _ _ _ _ _) as [[[[]| |] s1] planes];
    rewrite ?run_call;
    destruct (bool_decide (point_cloud_status w = AR_SUCCESS));
    rewrite <- ?app_assoc; reflexivity.
Qed.

(** ** OnTouched in closed form *)

Lemma hit_body_run w hl i s :
  in_iteration i (hit_body w hl i) s =
  (Ok (if hit_returns (hit_item w i) then Return else Next),
   after_hit (hit_item w i) s,
   map (pair (Some i)) (hit_events (ar_session_ s) hl i (hit_item w i))).
Proof.
  unfold after_hit, in_iteration, hit_body, hit_events, hit_returns, hit_places.
  rewrite run_this, !run_call.
  destruct (non_null (hit_result_out _)); cbn [negb orb andb];
    [|reflexivity].
  rewrite !run_call.
  destruct (bool_decide (hit_trackable_type _ = _)); cbn [negb orb andb];
    [|reflexivity].
  rewrite !run_call.
  destruct (in_polygon_out _ =? 0); cbn [negb orb andb]; [reflexivity|].
  rewrite !run_call.
  destruct (bool_decide (new_anchor_status _ = _)); cbn [negb orb andb];
    [|reflexivity].
  rewrite !run_call.
  destruct (bool_decide (new_anchor_tracking_state _ = _));
    cbn [negb orb andb]; [|reflexivity].
  rewrite run_assign, !run_call. reflexivity.
Qed.

Lemma after_hit_fields h s :
  ar_session_ (after_hit h s) = ar_session_ s ∧
  ar_frame_ (after_hit h s) = ar_frame_ s ∧
  plane_color_map_ (after_hit h s) = plane_color_map_ s ∧
  plane_count_ (after_hit h s) = plane_count_ s ∧
  asset_manager_ (after_hit h s) = asset_manager_ s.
Proof. unfold after_hit. by destruct (hit_places h). Qed.

Lemma iteration_app i t1 t2 :
  iteration i (t1 ++ t2) = iteration i t1 ++ iteration i t2.
Proof. unfold iteration. by rewrite filter_app, map_app. Qed.

Lemma iteration_tagged_same i (l : list Event) :
  iteration i (map (pair (Some i)) l) = l.
Proof.
  unfold iteration. induction l as [|e l IH]; [reflexivity|].
  cbn [map]. rewrite filter_cons_True by reflexivity. cbn [map snd].
  by rewrite IH.
Qed.

Lemma iteration_tagged_other i j (l : list Event) :
  i ≠ j → iteration i (map (pair (Some j)) l) = [].
Proof.
  intros Hne. unfold iteration. induction l as [|e l IH]; [reflexivity|].
  cbn [map]. rewrite filter_cons_False; [exact IH|].
  cbn. congruence.
Qed.

Lemma iteration_untagged i (l : list Event) :
  iteration i (map (pair None) l) = [].
Proof.
  unfold iteration. induction l as [|e l IH]; [reflexivity|].
  cbn [map]. rewrite filter_cons_False; [exact IH|]. cbn. congruence.
Qed.

Ltac hit_cases h :=
  unfold hit_events, hit_places, hit_returns;
  destruct (non_null (hit_result_out h)) eqn:Hhit;
  destruct (bool_decide (hit_trackable_type h = AR_TRACKABLE_PLANE)) eqn:Htype;
  destruct (in_polygon_out h =? 0) eqn:Hpoly;
  destruct (bool_decide (new_anchor_status h = AR_SUCCESS)) eqn:Hanchor;
  destruct (bool_decide
              (new_anchor_tracking_state h = AR_TRACKING_STATE_TRACKING))
    eqn:Hstate;
  cbn [negb andb orb app In].

Lemma hit_events_insert se hl i h a :
  In (tracked_obj_set_insert a) (hit_events se hl i h) ↔
  hit_places h = true ∧ a = new_anchor_out h.
Proof.
  hit_cases h; (split; [intros H|intros [H1 H2]]); try discriminate;
    repeat (destruct H as [H|H]; try discriminate); try done.
  - injection H as ->. done.
  - subst a. tauto.
Qed.

Lemma events_tagged j (l : list Event) : events (map (pair j) l) = l.
Proof.
  unfold events. rewrite map_map. cbn. apply map_id.
Qed.

Lemma iteration_tagged_in i j (l : list Event) e :
  In e (iteration i (map (pair (Some j)) l)) ↔ i = j ∧ In e l.
Proof.
  destruct (decide (i = j)) as [->|Hne].
  - rewrite iteration_tagged_same. tauto.
  - rewrite iteration_tagged_other by done. cbn. tauto.
Qed.

Lemma hit_events_no_plane_draws i se hl h :
  plane_draws (map (pair (Some i)) (hit_events se hl i h)) = [].
Proof. by hit_cases h. Qed.

Lemma hit_loop_spec w hl n : ∀ i0 s,
  hit_loop_post w hl i0 n s (hit_loop w hl i0 n s).
Proof.
  induction n as [|n IH]; intros i0 s.
  { cbn [hit_loop]. unfold ret.
    split; projections; eauto; try done. intros a. cbn.
    split; [auto|]. by intros [Ha|[_ []]]. }
  cbn [hit_loop]. erewrite run_bind_ok by apply hit_body_run.
  set (h := hit_item w i0).
  pose proof (after_hit_fields h s) as (Hse & Hfr & Hco & Hcn & _).
  assert (∀ a, a ∈ tracked_obj_set_ (after_hit h s) ↔
               a ∈ tracked_obj_set_ s ∨
               In (tracked_obj_set_insert a)
                  (hit_events (ar_session_ s) hl i0 h)) as Hset.
  { intros a. rewrite hit_events_insert. unfold after_hit.
    destruct (hit_places h); cbn.
    - rewrite elem_of_union, elem_of_singleton. split.
      + intros [Ha|Ha]; auto.
      + intros [Ha|[_ Ha]]; auto.
    - split; [auto|]. intros [Ha|[Ha _]]; [done|discriminate]. }
  destruct (hit_returns h).
  - unfold ret. split; projections; eauto; try done.
    + rewrite app_nil_r. apply hit_events_no_plane_draws.
    + intros i Hi. rewrite app_nil_r. apply iteration_tagged_other. lia.
    + intros i. rewrite app_nil_r. destruct (decide (i = i0)) as [->|Hne].
      * right. apply iteration_tagged_same.
      * left. by apply iteration_tagged_other.
    + intros a. rewrite app_nil_r, Hset. split.
      * intros [Ha|Ha]; [by left|right]. exists i0.
        by apply iteration_tagged_in.
      * intros [Ha|[i [_ Ha]%iteration_tagged_in]]; auto.
  - specialize (IH (i0 + 1) (after_hit h s)).
    destruct (hit_loop w hl (i0 + 1) n (after_hit h s)) as [[r s'] t].
    destruct IH as [Hr Hs Hf Hc Hn Hnd Hout Hin Hst]. projections.
    split; projections; try congruence.
    + by rewrite plane_draws_app, hit_events_no_plane_draws, Hnd.
    + intros i Hi. rewrite iteration_app, iteration_tagged_other by lia.
      apply Hout. lia.
    + intros i. rewrite iteration_app.
      destruct (decide (i = i0)) as [->|Hne].
      * right. rewrite iteration_tagged_same, Hout by lia.
        apply app_nil_r.
      * rewrite iteration_tagged_other by done. cbn [app].
        rewrite <- Hse. apply Hin.
    + intros a. rewrite Hst, Hset. split.
      * intros [[Ha|Ha]|[i Ha]]; [by left|right..].
        -- exists i0. rewrite iteration_app, in_app_iff. left.
           by apply iteration_tagged_in.
        -- exists i. rewrite iteration_app, in_app_iff. by right.
      * intros [Ha|[i Ha]]; [by left; left|].
        rewrite iteration_app, in_app_iff in Ha.
        destruct Ha as [[_ Ha]%iteration_tagged_in|Ha]; [by left; right|].
        right. by exists i.
Qed.

Lemma OnTouched_run w x y s :
  OnTouched w x y s =
  if non_null (ar_frame_ s) && non_null (ar_session_ s) then
    if non_null (hit_result_list_out w) then
      match touch_hit_loop w s with
      | (Ok Next, s1, hits) =>
          (Ok tt, s1,
           touch_open w x y s ++ hits ++
           [ (None, ArHitResultList_destroy (hit_result_list_out w)) ])
      | (Ok Return, s1, hits) => (Ok tt, s1, touch_open w x y s ++ hits)
      | (CheckFailed, s1, hits) =>
          (CheckFailed, s1, touch_open w x y s ++ hits)
      | (OutOfBounds, s1, hits) =>
          (OutOfBounds, s1, touch_open w x y s ++ hits)
      end
    else (CheckFailed, s,
          [ (None, ArHitResultList_create (ar_session_ s)
                                          (hit_result_list_out w)) ])
  else (Ok tt, s, []).
Proof.
  unfold OnTouched, touch_hit_loop, touch_open. rewrite run_this.
  destruct (non_null (ar_frame_ s) && non_null (ar_session_ s));
    [|reflexivity].
  rewrite run_call.
  destruct (non_null (hit_result_list_out w));
    [rewrite run_CHECK_true|by rewrite run_CHECK_false].
  rewrite !run_call.
  destruct (hit_loop _ _ _ _ _) as [[[c| |] s1] hits] eqn:Hloop.
  - erewrite run_bind_ok by exact Hloop.
    destruct c; cbn; by rewrite ?app_nil_r.
  - by erewrite run_bind_check by exact Hloop.
  - by erewrite run_bind_bounds by exact Hloop.
Qed.

Lemma hit_events_not_nil se hl i h : hit_events se hl i h ≠ [].
Proof. unfold hit_events. done. Qed.

Lemma hit_loop_reached w hl n : ∀ i0 s i,
  let t := trace_of (hit_loop w hl i0 n s) in
  (reached w i0 n i →
     iteration i t = hit_events (ar_session_ s) hl i (hit_item w i)) ∧
  (iteration i t ≠ [] → reached w i0 n i).
Proof.
  induction n as [|n IH]; intros i0 s i; cbv zeta.
  { split; [|done]. intros [Hi _]. lia. }
  cbn [hit_loop]. erewrite run_bind_ok by apply hit_body_run.
  pose proof (after_hit_fields (hit_item w i0) s) as (Hse & _).
  assert (reached w i0 (S n) i0) as Hfirst.
  { split; [lia|]. intros j Hj. lia. }
  destruct (hit_returns (hit_item w i0)) eqn:Hret.
  - unfold ret. projections. rewrite app_nil_r.
    destruct (decide (i = i0)) as [->|Hne].
    + split; [|done]. intros _. apply iteration_tagged_same.
    + rewrite iteration_tagged_other by done. split; [|done].
      intros [Hi Hj]. specialize (Hj i0 ltac:(lia)). congruence.
  - specialize (IH (i0 + 1) (after_hit (hit_item w i0) s) i).
    cbv zeta in IH.
    destruct (hit_loop w hl (i0 + 1) n (after_hit (hit_item w i0) s))
      as [[r s'] t].
    projections. rewrite iteration_app. destruct IH as [IHin IHback].
    destruct (decide (i = i0)) as [->|Hne].
    + split; [|done]. intros _. rewrite iteration_tagged_same.
      destruct (iteration i0 t) as [|e l] eqn:Hit; [apply app_nil_r|].
      destruct IHback as [Hi _]; [done|lia].
    + rewrite iteration_tagged_other by done. cbn [app]. rewrite <- Hse.
      split.
      * intros [Hi Hj]. apply IHin. split; [lia|].
        intros j Hj'. apply Hj. lia.
      * intros Hn. destruct (IHback Hn) as [Hi Hj]. split; [lia|].
        intros j Hj'. destruct (decide (j = i0)) as [->|Hj0]; [done|].
        apply Hj. lia.
Qed.

(** * The constructor *)

Lemma non_null_true p : non_null p = true ↔ p ≠ nullptr.
Proof.
  unfold non_null, nullptr. destruct (N.eqb_spec p 0); cbn; split; done.
Qed.

Lemma non_null_false p : non_null p = false ↔ p = nullptr.
Proof.
  unfold non_null, nullptr. destruct (N.eqb_spec p 0); cbn; split; done.
Qed.

(** C6. The constructor creates the session, creates a default
    configuration, asks whether it is supported, applies it, destroys it and
    creates a frame, in this order.  When every answer is good the
    constructor returns with [ar_session_] and [ar_frame_] non-null; when any
    answer is bad a [CHECK] aborts, and the calls made until then are an
    initial part of the same sequence. *)
Theorem constructor_sequence (w : CreateSdk) (asset_manager env context : ptr) :
  let r := HelloArApplication_new w asset_manager env context in
  (sdk_succeeds w →
     result_of r = Ok tt ∧
     events (trace_of r) = constructor_calls w env context ∧
     ar_session_ (object_of r) = session_create_out w ∧
     ar_session_ (object_of r) ≠ nullptr ∧
     ar_frame_ (object_of r) = frame_create_out w ∧
     ar_frame_ (object_of r) ≠ nullptr) ∧
  (¬ sdk_succeeds w → result_of r = CheckFailed) ∧
  events (trace_of r) `prefix_of` constructor_calls w env context.
Proof.
  unfold HelloArApplication_new, constructor_body, sdk_succeeds,
    constructor_calls.
  rewrite !run_call, run_assign.
  destruct (bool_decide (session_create_status w = AR_SUCCESS)) eqn:H1;
    [rewrite run_CHECK_true|rewrite run_CHECK_false];
    [|apply bool_decide_eq_false in H1; projections;
      split_and!; [tauto|done|by eexists] ].
  rewrite run_this. cbn [ar_session_ set_ar_session_].
  destruct (non_null (session_create_out w)) eqn:H2;
    [rewrite run_CHECK_true|rewrite run_CHECK_false];
    [|apply non_null_false in H2; projections;
      split_and!; [tauto|done|by eexists] ].
  rewrite run_call.
  destruct (non_null (config_create_out w)) eqn:H3;
    [rewrite run_CHECK_true|rewrite run_CHECK_false];
    [|apply non_null_false in H3; projections;
      split_and!; [tauto|done|by eexists] ].
  rewrite run_call.
  destruct (bool_decide (check_supported_status w = AR_SUCCESS)) eqn:H4;
    [rewrite run_CHECK_true|rewrite run_CHECK_false];
    [|apply bool_decide_eq_false in H4; projections;
      split_and!; [tauto|done|by eexists] ].
  rewrite run_call.
  destruct (bool_decide (configure_status w = AR_SUCCESS)) eqn:H5;
    [rewrite run_CHECK_true|rewrite run_CHECK_false];
    [|apply bool_decide_eq_false in H5; projections;
      split_and!; [tauto|done|by eexists] ].
  rewrite !run_call, run_assign, run_this. cbn [ar_frame_ set_ar_frame_].
  apply bool_decide_eq_true in H1, H4, H5. apply non_null_true in H2, H3.
  destruct (non_null (frame_create_out w)) eqn:H6; unfold CHECK; projections.
  - apply non_null_true in H6. split_and!; try done. tauto.
  - apply non_null_false in H6. split_and!; [tauto|done|done].
Qed.

Lemma constructor_sequence_witness :
  let r := HelloArApplication_new good_create 9%N 7%N 8%N in
  result_of r = Ok tt ∧
  events (trace_of r) = constructor_calls good_create 7%N 8%N ∧
  ar_session_ (object_of r) = 1%N ∧ ar_session_ (object_of r) ≠ nullptr ∧
  ar_frame_ (object_of r) = 2%N ∧ ar_frame_ (object_of r) ≠ nullptr.
Proof.
  apply (constructor_sequence good_create 9%N 7%N 8%N).
  unfold sdk_succeeds, good_create, nullptr. cbn. split_and!; done.
Defined.

(** * OnTouched *)




Lemma hit_events_placed se hl i h :
  hit_places h = true →
  hit_events se hl i h =
  [ ArHitResult_create se (hit_result_out h);
    ArHitResultList_getItem se hl i (hit_result_out h);
    ArHitResult_acquireTrackable se (hit_result_out h) (hit_trackable_out h);
    ArTrackable_getType se (hit_trackable_out h) AR_TRACKABLE_PLANE;
    ArPose_create se nullptr (hit_pose_out h);
    ArHitResult_getHitPose se (hit_result_out h) (hit_pose_out h);
    ArPlane_isPoseInPolygon se (hit_trackable_out h) (hit_pose_out h)
                            (in_polygon_out h);
    ArTrackable_release (hit_trackable_out h);
    ArPose_destroy (hit_pose_out h);
    ArHitResult_acquireNewAnchor se (hit_result_out h) AR_SUCCESS
                                 (new_anchor_out h);
    ArAnchor_getTrackingState se (new_anchor_out h)
                              AR_TRACKING_STATE_TRACKING;
    tracked_obj_set_insert (new_anchor_out h);
    ArHitResult_destroy (hit_result_out h) ] ∧
  in_polygon_out h ≠ 0.
Proof.
  hit_cases h; intros H; try discriminate H.
  apply bool_decide_eq_true in Htype, Hanchor, Hstate.
  apply Z.eqb_neq in Hpoly. by rewrite Htype, Hanchor, Hstate.
Qed.








(** C9. When [ar_frame_] or [ar_session_] is null, [OnTouched] returns
    without calling anything and leaves the object as it was; in particular
    [tracked_obj_set_] and [plane_color_map_] are unchanged. *)
Theorem OnTouched_without_session_or_frame (w : TouchSdk) (x y : float)
    (s : HelloArApplication) :
  ar_frame_ s = nullptr ∨ ar_session_ s = nullptr →
  let r := OnTouched w x y s in
  result_of r = Ok tt ∧ trace_of r = [] ∧ object_of r = s ∧
  tracked_obj_set_ (object_of r) = tracked_obj_set_ s ∧
  plane_color_map_ (object_of r) = plane_color_map_ s.
Proof.
  intros H. cbv zeta. unfold OnTouched. rewrite run_this.
  assert (non_null (ar_frame_ s) && non_null (ar_session_ s) = false) as ->.
  { apply andb_false_iff.
    destruct H as [H|H]; [left|right]; by apply non_null_false. }
  done.
Qed.

Lemma OnTouched_without_session_or_frame_witness :
  let s := member_init 9%N in
  (ar_frame_ s = nullptr ∨ ar_session_ s = nullptr) ∧
  trace_of (OnTouched two_plane_hits 0%Q 0%Q s) = [] ∧
  object_of (OnTouched two_plane_hits 0%Q 0%Q s) = s.
Proof.
  assert (ar_frame_ (member_init 9%N) = nullptr ∨
          ar_session_ (member_init 9%N) = nullptr) as H by (left; reflexivity).
  split; [exact H|].
  pose proof (OnTouched_without_session_or_frame two_plane_hits 0%Q 0%Q
                (member_init 9%N) H) as (_ & Ht & Ho & _).
  split; [exact Ht|exact Ho].
Defined.

(** C1, at a tap that meets a feature point: [OnTouched] returns while the
    hit result it created is still held.  It is not an anchor handed to
    [tracked_obj_set_]; the loop leaves the iteration through [continue]
    before [ArHitResult_destroy]. *)
Theorem hit_result_not_destroyed :
  let r := OnTouched one_point_hit 0%Q 0%Q ready_app in
  result_of r = Ok tt ∧
  events (trace_of r) =
    [ ArHitResultList_create 1%N 50%N;
      ArFrame_hitTest 1%N 2%N 0%Q 0%Q 50%N;
      ArHitResultList_getSize 1%N 50%N 1;
      ArHitResult_create 1%N 51%N;
      ArHitResultList_getItem 1%N 50%N 0 51%N;
      ArHitResult_acquireTrackable 1%N 51%N 61%N;
      ArTrackable_getType 1%N 61%N AR_TRACKABLE_POINT;
      ArTrackable_release 61%N;
      ArHitResultList_destroy 50%N ] ∧
  retained (events (trace_of r)) = [] ∧
  held_after [] (events (trace_of r)) = Some [(KHitResult, 51%N)].
Proof. vm_compute. done. Qed.

(** C3, at a tap whose ray crosses two planes: one call of [OnTouched] hands
    two anchors to [tracked_obj_set_], which was empty before. *)
Theorem two_anchors_from_one_tap :
  let r := OnTouched two_plane_hits 0%Q 0%Q ready_app in
  result_of r = Ok tt ∧
  tracked_obj_set_ ready_app = ∅ ∧
  retained (events (trace_of r)) = [(KAnchor, 81%N); (KAnchor, 82%N)] ∧
  elements (tracked_obj_set_ (object_of r)) = [82%N; 81%N] ∧
  size (tracked_obj_set_ (object_of r)) = 2%nat.
Proof. vm_compute. done. Qed.

(** * OnDrawFrame *)

Lemma forallb_impl {A} (f g : A → bool) (l : list A) :
  (∀ x, f x = true → g x = true) → forallb f l = true → forallb g l = true.
Proof.
  intros Hfg. rewrite !forallb_forall. auto.
Qed.

Lemma andy_events_are_andy_events w se P V L objs :
  forallb is_andy_event
    (events (concat (map (andy_events w se P V L) objs))) = true.
Proof.
  induction objs as [|a objs IH]; [reflexivity|].
  cbn [map concat]. rewrite events_app, forallb_app, IH.
  unfold andy_events. by destruct (bool_decide _).
Qed.

(** The outcome of a frame together with what the plane loop did. *)
Lemma OnDrawFrame_cases w s :
  let r := OnDrawFrame w s in
  let before := frame_before_planes w s ++ frame_planes_open w s in
  (non_null (plane_list_out w) = false ∧
   r = (CheckFailed, s, before)) ∨
  (non_null (plane_list_out w) = true ∧
   ∃ planes,
     plane_loop_post w (set_plane_count_ (plane_list_size_out w) s)
       (result_of r, object_of r, planes) ∧
     ((result_of r = Ok tt ∧
       trace_of r = before ++ frame_planes_size w s ++ planes ++
                    frame_planes_close w ++ frame_point_cloud w s) ∨
      (result_of r = OutOfBounds ∧
       trace_of r = before ++ frame_planes_size w s ++ planes))).
Proof.
  cbv zeta. rewrite OnDrawFrame_run.
  destruct (non_null (plane_list_out w)); [right|by left].
  split; [done|].
  pose proof (plane_loop_spec w (projection_matrix_out w) (view_matrix_out w)
                (plane_list_out w) (Z.to_nat (plane_list_size_out w)) 0 0
                (set_plane_count_ (plane_list_size_out w) s)) as Hpost.
  unfold frame_plane_loop.
  destruct (plane_loop _ _ _ _ _ _ _ _) as [[[[]| |] s1] planes];
    exists planes; projections; (split; [exact Hpost|]).
  - left. by rewrite <- !app_assoc.
  - by destruct Hpost.
  - right. by rewrite <- !app_assoc.
Qed.

Lemma andy_draws_app t1 t2 : andy_draws (t1 ++ t2) = andy_draws t1 ++ andy_draws t2.
Proof. apply omap_app. Qed.

Lemma anchor_queries_app t1 t2 :
  anchor_queries (t1 ++ t2) = anchor_queries t1 ++ anchor_queries t2.
Proof. apply omap_app. Qed.

Lemma plane_events_no_andy (t : Trace) :
  forallb is_plane_event (events t) = true →
  andy_draws t = [] ∧ anchor_queries t = [].
Proof.
  induction t as [|[j e] t IH]; [done|].
  cbn [events map forallb snd]. intros [He Ht]%andb_true_iff.
  destruct (IH Ht) as [IH1 IH2].
  destruct e; try discriminate He; (split; [exact IH1|exact IH2]).
Qed.

Lemma andy_loop_draws w se P V L objs :
  andy_draws (concat (map (andy_events w se P V L) objs)) =
  map (λ a, (P, V, anchor_transform w a, L)) (filter (tracking w) objs) ∧
  anchor_queries (concat (map (andy_events w se P V L) objs)) =
  map (λ a, (a, anchor_tracking_state w a)) objs.
Proof.
  induction objs as [|a objs [IH1 IH2]]; [done|].
  cbn [map concat]. rewrite andy_draws_app, anchor_queries_app, IH1, IH2.
  unfold andy_events, tracking. rewrite filter_cons.
  destruct (decide (anchor_tracking_state w a = _)) as [Ha|Ha].
  - by rewrite bool_decide_eq_true_2.
  - by rewrite bool_decide_eq_false_2.
Qed.

(** The anchor calls of a frame, in the order in which the range-[for]
    visits the set. *)
Lemma OnDrawFrame_andy_calls w s :
  anchor_queries (trace_of (OnDrawFrame w s)) =
    map (λ a, (a, anchor_tracking_state w a))
        (tracked_obj_visit w (tracked_obj_set_ s)) ∧
  andy_draws (trace_of (OnDrawFrame w s)) =
    map (λ a, (projection_matrix_out w, view_matrix_out w,
               anchor_transform w a, frame_light_intensity w))
        (filter (tracking w) (tracked_obj_visit w (tracked_obj_set_ s))).
Proof.
  destruct (andy_loop_draws w (ar_session_ s) (projection_matrix_out w)
              (view_matrix_out w) (frame_light_intensity w)
              (tracked_obj_visit w (tracked_obj_set_ s)))
    as [Hdraws Hqueries].
  assert (andy_draws (frame_before_planes w s ++ frame_planes_open w s) =
          andy_draws (frame_andy w s) ∧
          anchor_queries (frame_before_planes w s ++ frame_planes_open w s) =
          anchor_queries (frame_andy w s)) as [Hd Hq].
  { unfold frame_before_planes, frame_update, frame_light.
    rewrite !andy_draws_app, !anchor_queries_app.
    destruct (bool_decide (update_status w = _)),
             (bool_decide (light_estimate_state_out w = _));
      cbn; by rewrite !app_nil_r. }
  destruct (OnDrawFrame_cases w s) as [[_ ->]|(_ & planes & Hpost & Hr)];
    projections.
  { by rewrite Hd, Hq. }
  destruct Hpost as [_ _ _ _ _ _ [Hpd Hpq]%plane_events_no_andy _].
  projections.
  assert (andy_draws (frame_planes_size w s) = [] ∧
          anchor_queries (frame_planes_size w s) = [] ∧
          andy_draws (frame_planes_close w) = [] ∧
          anchor_queries (frame_planes_close w) = [] ∧
          andy_draws (frame_point_cloud w s) = [] ∧
          anchor_queries (frame_point_cloud w s) = [])
    as (H1 & H2 & H3 & H4 & H5 & H6).
  { unfold frame_point_cloud. by destruct (bool_decide _). }
  destruct Hr as [[_ ->]|[_ ->]];
    rewrite !(andy_draws_app (_ ++ _)), !(anchor_queries_app (_ ++ _)),
      Hd, Hq, !andy_draws_app, !anchor_queries_app, Hpd, Hpq, H1, H2,
      ?H3, ?H4, ?H5, ?H6, ?app_nil_r; done.
Qed.

(** C7. In every [OnDrawFrame] the range-[for] visits each anchor of
    [tracked_obj_set_] exactly once; the tracking state of each is queried
    once, and the calls of [andy_renderer_.Draw] are exactly one per anchor
    whose state is [AR_TRACKING_STATE_TRACKING], each with that anchor's
    transform as the model matrix; an anchor in any other state gets no draw
    call.  This holds call for call in the order of the visit, and so, up to
    order, over the anchors of the set.  The set is the same after the
    frame. *)
Theorem andy_drawn_iff_tracking (w : FrameSdk) (s : HelloArApplication) :
  let r := OnDrawFrame w s in
  let visited := tracked_obj_visit w (tracked_obj_set_ s) in
  let query_of := λ a, (a, anchor_tracking_state w a) in
  let draw_of := λ a, (projection_matrix_out w, view_matrix_out w,
                       anchor_transform w a, frame_light_intensity w) in
  let is_tracking := λ a,
    anchor_tracking_state w a = AR_TRACKING_STATE_TRACKING in
  visited ≡ₚ elements (tracked_obj_set_ s) ∧
  anchor_queries (trace_of r) = map query_of visited ∧
  andy_draws (trace_of r) = map draw_of (filter is_tracking visited) ∧
  anchor_queries (trace_of r) ≡ₚ
    map query_of (elements (tracked_obj_set_ s)) ∧
  andy_draws (trace_of r) ≡ₚ
    map draw_of (filter is_tracking (elements (tracked_obj_set_ s))) ∧
  tracked_obj_set_ (object_of r) = tracked_obj_set_ s.
Proof.
  cbv zeta.
  pose proof (tracked_obj_visit_once w (tracked_obj_set_ s)) as Hvisit.
  destruct (OnDrawFrame_andy_calls w s) as [Hq Hd].
  split_and!; [exact Hvisit|exact Hq|exact Hd| | |].
  - rewrite Hq. by apply Permutation_map.
  - rewrite Hd. apply Permutation_map. unfold tracking. by rewrite Hvisit.
  - destruct (OnDrawFrame_cases w s)
      as [[_ ->]|(_ & planes & [Ho _ _ _ _ _ _ _] & _)]; projections;
      [done|]. by rewrite Ho.
Qed.

Lemma held_after_neutral live t :
  forallb is_neutral t = true → held_after live t = Some live.
Proof.
  induction t as [|e t IH]; [done|].
  cbn [forallb held_after]. intros [He Ht]%andb_true_iff.
  unfold is_neutral in He.
  destruct (acquired e), (released e), (fed e); try discriminate He.
  cbn [forallb]. auto.
Qed.

Lemma andy_events_neutral w se P V L objs :
  forallb is_neutral (events (concat (map (andy_events w se P V L) objs)))
  = true.
Proof.
  eapply forallb_impl; [|apply andy_events_are_andy_events].
  by intros [].
Qed.

Ltac segment H :=
  rewrite events_app, held_after_app, H; cbn [mbind option_bind option_ret].

Lemma held_after_before_planes w s :
  held_after [] (events (frame_before_planes w s)) = Some [].
Proof.
  unfold frame_before_planes.
  assert (held_after [] (events frame_setup) = Some []) as H1 by done.
  assert (held_after [] (events (frame_update w s)) = Some []) as H2.
  { unfold frame_update. by destruct (bool_decide _). }
  assert (held_after [] (events (frame_camera w s)) = Some []) as H3.
  { cbn. unfold is_null, nullptr. cbn.
    destruct (N.eqb_spec (camera_out w) 0); [done|].
    by rewrite remove_one_head. }
  assert (held_after [] (events (frame_background s)) = Some []) as H4 by done.
  assert (held_after [] (events (frame_light w s)) = Some []) as H5.
  { unfold frame_light. destruct (bool_decide _); cbn;
      unfold is_null, nullptr; cbn;
      (destruct (N.eqb_spec (light_estimate_out w) 0); [done|]);
      by rewrite remove_one_head. }
  segment H1. segment H2. segment H3. segment H4. segment H5.
  apply held_after_neutral, andy_events_neutral.
Qed.

Lemma held_after_point_cloud w s :
  held_after [] (events (frame_point_cloud w s)) = Some [].
Proof.
  unfold frame_point_cloud.
  destruct (bool_decide (point_cloud_status w = AR_SUCCESS)) eqn:Hst.
  - apply bool_decide_eq_true in Hst. rewrite Hst.
    by apply held_after_bracket with (r := (KPointCloud, point_cloud_out w)).
  - apply bool_decide_eq_false in Hst. cbn.
    by destruct (point_cloud_status w).
Qed.

(** Every reference handed out during a frame is given back once, no
    reference is given back that is not held, and no renderer is fed an object
    that is not held. *)
Lemma OnDrawFrame_held w s :
  let r := OnDrawFrame w s in
  ∃ held, held_after [] (events (trace_of r)) = Some held ∧
          (result_of r = Ok tt → held = []).
Proof.
  cbv zeta.
  destruct (OnDrawFrame_cases w s) as [[Hn ->]|(Hn & planes & Hpost & Hr)];
    projections.
  { exists []. split; [|done].
    rewrite events_app, held_after_app, held_after_before_planes.
    cbn. unfold is_null. cbn [snd].
    apply non_null_false in Hn. rewrite Hn. done. }
  destruct Hpost as [_ _ _ _ _ _ _ Hheld]. projections.
  destruct (Hheld [(KTrackableList, plane_list_out w)]) as (held & Hh & Hok).
  assert (held_after [] (events ((frame_before_planes w s ++
            frame_planes_open w s) ++ frame_planes_size w s ++ planes))
          = Some held) as Hprefix.
  { assert (held_after [] (events (frame_planes_open w s)) =
            Some [(KTrackableList, plane_list_out w)]) as Hopen.
    { cbn. unfold is_null. cbn [snd]. unfold non_null in Hn.
      apply negb_true_iff in Hn. by rewrite Hn. }
    assert (held_after [(KTrackableList, plane_list_out w)]
              (events (frame_planes_size w s)) =
            Some [(KTrackableList, plane_list_out w)]) as Hsize by done.
    rewrite <- app_assoc.
    segment held_after_before_planes. segment Hopen. segment Hsize.
    exact Hh. }
  destruct Hr as [[Hres ->]|[Hres ->]].
  - exists []. split; [|done].
    assert (held_after [(KTrackableList, plane_list_out w)]
              (events (frame_planes_close w)) = Some []) as Hclose.
    { cbn. unfold is_null. cbn [snd]. unfold non_null in Hn.
      apply negb_true_iff in Hn. rewrite Hn. by rewrite decide_True. }
    rewrite (Hok Hres) in Hprefix.
    rewrite !app_assoc, <- (app_assoc _ _ planes), <- app_assoc.
    segment Hprefix. segment Hclose. apply held_after_point_cloud.
  - exists held. split; [exact Hprefix|]. rewrite Hres. done.
Qed.

Ltac list_norm :=
  repeat (rewrite <- app_assoc || rewrite <- app_comm_cons).

Lemma plane_loop_calls w P V pl n : ∀ i rands s,
  let x := plane_loop w P V pl i n rands s in
  result_of x = Ok tt →
  ∃ colors,
    length colors = n ∧
    Forall2 (λ j c, plane_color_map_ (object_of x) !! plane_item w j = Some c)
            (indices i n) colors ∧
    trace_of x =
      concat (zip_with (λ j c, plane_events (ar_session_ s) P V pl j
                                            (plane_item w j) c)
                       (indices i n) colors).
Proof.
  induction n as [|n IH]; intros i rands s; cbv zeta.
  { intros _. exists []. split_and!; [done|constructor|done]. }
  cbn [plane_loop indices]. unfold bind at 1 2 3.
  destruct (plane_body_run w P V pl i rands s) as [c Hm|c Hm Hr|Hm Hr];
    [| |done].
  - specialize (IH (i + 1) rands s). cbv zeta in IH.
    pose proof (plane_loop_spec w P V pl n (i + 1) rands s) as [_ Hg _ _ _ _ _ _].
    destruct (plane_loop w P V pl (i + 1) n rands s) as [[r s'] t].
    projections. intros Hres.
    destruct (IH Hres) as (colors & Hlen & Hmap & ->).
    exists (c :: colors). split_and!; [by rewrite <- Hlen| |done].
    constructor; [|done]. by eapply lookup_weaken.
  - set (s1 := set_plane_color_map_ _ s) in *.
    specialize (IH (i + 1) (S rands) s1). cbv zeta in IH.
    pose proof (plane_loop_spec w P V pl n (i + 1) (S rands) s1)
      as [_ Hg _ _ _ _ _ _].
    destruct (plane_loop w P V pl (i + 1) n (S rands) s1) as [[r s'] t].
    projections. intros Hres.
    destruct (IH Hres) as (colors & Hlen & Hmap & ->).
    exists (c :: colors). split_and!; [by rewrite <- Hlen| |done].
    constructor; [|done].
    eapply lookup_weaken; [|done]. cbn. apply lookup_insert_eq.
Qed.

Lemma events_plane_calls se P V pl (w : FrameSdk) (js : list Z) :
  ∀ colors : list vec3,
  events (concat (zip_with (λ j c, plane_events se P V pl j (plane_item w j) c)
                           js colors)) =
  concat (zip_with (λ j c,
            [ ArTrackableList_acquireItem se pl j (plane_item w j);
              plane_renderer_Draw P V se (plane_item w j) c;
              ArTrackable_release (plane_item w j) ]) js colors).
Proof.
  induction js as [|j js IH]; intros [|c colors]; try done.
  cbn [zip_with concat]. rewrite events_app, IH. done.
Qed.

Lemma plane_calls_are_plane_events se P V pl (w : FrameSdk) (js : list Z) :
  ∀ colors : list vec3,
  forallb is_plane_event
    (events (concat (zip_with
       (λ j c, plane_events se P V pl j (plane_item w j) c) js colors)))
  = true.
Proof.
  induction js as [|j js IH]; intros [|c colors]; try done.
  cbn [zip_with concat]. rewrite events_app, forallb_app, IH. done.
Qed.

Lemma OnDrawFrame_plane_calls w s :
  result_of (OnDrawFrame w s) = Ok tt →
  ∃ colors,
    length colors = Z.to_nat (plane_list_size_out w) ∧
    Forall2 (λ j c, plane_color_map_ (object_of (OnDrawFrame w s))
                    !! plane_item w j = Some c)
            (indices 0 (Z.to_nat (plane_list_size_out w))) colors ∧
    trace_of (OnDrawFrame w s) =
      (frame_before_planes w s ++ frame_planes_open w s) ++
      frame_planes_size w s ++
      concat (zip_with (λ j c, plane_events (ar_session_ s)
                (projection_matrix_out w) (view_matrix_out w)
                (plane_list_out w) j (plane_item w j) c)
              (indices 0 (Z.to_nat (plane_list_size_out w))) colors) ++
      frame_planes_close w ++ frame_point_cloud w s.
Proof.
  rewrite OnDrawFrame_run.
  destruct (non_null (plane_list_out w)); [|done].
  pose proof (plane_loop_calls w (projection_matrix_out w) (view_matrix_out w)
                (plane_list_out w) (Z.to_nat (plane_list_size_out w)) 0 0
                (set_plane_count_ (plane_list_size_out w) s)) as Hcalls.
  cbv zeta in Hcalls. unfold frame_plane_loop.
  destruct (plane_loop _ _ _ _ _ _ _ _) as [[[[]| |] s1] planes];
    projections; [|done..].
  intros _. destruct (Hcalls eq_refl) as (colors & Hlen & Hmap & ->).
  exists colors. split_and!; [done|done|]. by rewrite <- !app_assoc.
Qed.

Lemma events_andy w se P V L (objs : list ptr) :
  events (concat (map (andy_events w se P V L) objs)) =
  concat (map (λ a,
    ArAnchor_getTrackingState se a (anchor_tracking_state w a) ::
    if bool_decide (anchor_tracking_state w a = AR_TRACKING_STATE_TRACKING)
    then [ GetTransformMatrixFromAnchor se a (anchor_transform w a);
           andy_renderer_Draw P V (anchor_transform w a) L ]
    else []) objs).
Proof.
  induction objs as [|a objs IH]; [done|].
  cbn [map concat]. rewrite events_app, IH. f_equal.
  unfold andy_events. by destruct (bool_decide _).
Qed.

(** C4. Every [OnDrawFrame] runs its phases in one order: after the GL state
    set-up, [ArSession_update] is the first SDK call; then the camera is
    acquired, the view and projection matrices are read and the camera is
    released; then the background is drawn; then the light estimate is
    created, read and destroyed; then, for each anchor in the order of the
    range-[for], its state is queried and Andy is drawn when it is tracking;
    then come the plane calls; then the point-cloud calls.  In a frame that
    returns, the plane calls are: the list is created, filled and sized, then
    for each index below the reported size the item is acquired, drawn in the
    colour the map holds for it, and released, and then the list is
    destroyed; the point-cloud calls are the acquisition, followed by the
    draw and the release when it succeeded.  Replaying the trace never meets
    a renderer that is fed an object not held at that moment, nor a release
    of an object not held, and a frame that returns holds nothing at its
    end. *)
Theorem frame_order (w : FrameSdk) (s : HelloArApplication) :
  let r := OnDrawFrame w s in
  let se := ar_session_ s in
  let fr := ar_frame_ s in
  let P := projection_matrix_out w in
  let V := view_matrix_out w in
  let n := Z.to_nat (plane_list_size_out w) in
  ∃ log planes cloud : list Event,
    events (trace_of r) =
      events frame_setup ++
      ArSession_update se fr (update_status w) :: log ++
      [ ArFrame_acquireCamera se fr (camera_out w);
        ArCamera_getViewMatrix se (camera_out w) V;
        ArCamera_getProjectionMatrix se (camera_out w) (1 # 10) 100%Q P;
        ArCamera_release (camera_out w) ] ++
      [ background_renderer_Draw se fr ] ++
      events (frame_light w s) ++
      events (frame_andy w s) ++
      planes ++ cloud ∧
    forallb is_gl_event (events frame_setup) = true ∧
    (log = [] ∨
     log = [LOGE "HelloArApplication::OnDrawFrame ArSession_update error"]) ∧
    (∃ read,
       events (frame_light w s) =
         [ ArLightEstimate_create se (light_estimate_out w);
           ArFrame_getLightEstimate se fr (light_estimate_out w);
           ArLightEstimate_getState se (light_estimate_out w)
                                    (light_estimate_state_out w) ] ++ read ++
         [ ArLightEstimate_destroy (light_estimate_out w) ] ∧
       (read = [] ∨
        read = [ ArLightEstimate_getPixelIntensity se (light_estimate_out w)
                   (pixel_intensity_out w) ])) ∧
    forallb is_andy_event (events (frame_andy w s)) = true ∧
    events (frame_andy w s) =
      concat (map (λ a,
        ArAnchor_getTrackingState se a (anchor_tracking_state w a) ::
        if bool_decide
             (anchor_tracking_state w a = AR_TRACKING_STATE_TRACKING)
        then [ GetTransformMatrixFromAnchor se a (anchor_transform w a);
               andy_renderer_Draw P V (anchor_transform w a)
                                  (frame_light_intensity w) ]
        else []) (tracked_obj_visit w (tracked_obj_set_ s))) ∧
    tracked_obj_visit w (tracked_obj_set_ s) ≡ₚ
      elements (tracked_obj_set_ s) ∧
    forallb is_plane_event planes = true ∧
    forallb is_point_cloud_event cloud = true ∧
    (result_of r = Ok tt →
       (∃ colors,
          length colors = n ∧
          Forall2 (λ i c, plane_color_map_ (object_of r) !! plane_item w i
                          = Some c) (indices 0 n) colors ∧
          planes =
            [ ArTrackableList_create se (plane_list_out w);
              ArSession_getAllTrackables se AR_TRACKABLE_PLANE
                                         (plane_list_out w);
              ArTrackableList_getSize se (plane_list_out w)
                                      (plane_list_size_out w) ] ++
            concat (zip_with (λ i c,
              [ ArTrackableList_acquireItem se (plane_list_out w) i
                                            (plane_item w i);
                plane_renderer_Draw P V se (plane_item w i) c;
                ArTrackable_release (plane_item w i) ])
              (indices 0 n) colors) ++
            [ ArTrackableList_destroy (plane_list_out w) ]) ∧
       cloud =
         ArFrame_acquirePointCloud se fr (point_cloud_status w)
                                   (point_cloud_out w) ::
         if bool_decide (point_cloud_status w = AR_SUCCESS)
         then [ point_cloud_renderer_Draw (mat4_mul P V) se
                                          (point_cloud_out w);
                ArPointCloud_release (point_cloud_out w) ]
         else []) ∧
    ∃ held, held_after [] (events (trace_of r)) = Some held ∧
            (result_of r = Ok tt → held = []).
Proof.
  cbv zeta.
  set (log := if bool_decide (update_status w = AR_SUCCESS) then []
              else [LOGE
                "HelloArApplication::OnDrawFrame ArSession_update error"]).
  assert (events (frame_before_planes w s) =
    events frame_setup ++
    ArSession_update (ar_session_ s) (ar_frame_ s) (update_status w) :: log ++
    events (frame_camera w s) ++ events (frame_background s) ++
    events (frame_light w s) ++ events (frame_andy w s)) as Hbefore.
  { unfold frame_before_planes, frame_update, log.
    rewrite !events_app. by destruct (bool_decide _). }
  assert (log = [] ∨
          log = [LOGE "HelloArApplication::OnDrawFrame ArSession_update error"])
    as Hlog by (unfold log; destruct (bool_decide _); auto).
  assert (∃ read,
    events (frame_light w s) =
      [ ArLightEstimate_create (ar_session_ s) (light_estimate_out w);
        ArFrame_getLightEstimate (ar_session_ s) (ar_frame_ s)
                                 (light_estimate_out w);
        ArLightEstimate_getState (ar_session_ s) (light_estimate_out w)
                                 (light_estimate_state_out w) ] ++ read ++
      [ ArLightEstimate_destroy (light_estimate_out w) ] ∧
    (read = [] ∨
     read = [ ArLightEstimate_getPixelIntensity (ar_session_ s)
                (light_estimate_out w) (pixel_intensity_out w) ])) as Hlight.
  { unfold frame_light.
    destruct (bool_decide (light_estimate_state_out w = _)).
    - exists [ ArLightEstimate_getPixelIntensity (ar_session_ s)
                 (light_estimate_out w) (pixel_intensity_out w) ].
      split; [reflexivity|by right].
    - exists []. split; [reflexivity|by left]. }
  pose proof (andy_events_are_andy_events w (ar_session_ s)
                (projection_matrix_out w) (view_matrix_out w)
                (frame_light_intensity w)
                (tracked_obj_visit w (tracked_obj_set_ s)))
    as Handy.
  pose proof (events_andy w (ar_session_ s) (projection_matrix_out w)
                (view_matrix_out w) (frame_light_intensity w)
                (tracked_obj_visit w (tracked_obj_set_ s))) as Hcalls.
  pose proof (tracked_obj_visit_once w (tracked_obj_set_ s)) as Hvisit.
  pose proof (OnDrawFrame_held w s) as Hheld. cbv zeta in Hheld.
  exists log.
  destruct (OnDrawFrame_cases w s) as [[Hn Hr]|(Hn & planes & Hpost & Hr)].
  - exists (events (frame_planes_open w s)), [].
    rewrite Hr in *. projections.
    split_and!; try done.
    rewrite events_app, Hbefore, app_nil_r. by list_norm.
  - destruct Hpost as [_ _ _ _ _ _ Hev _]. projections.
    destruct Hr as [[Hres Ht]|[Hres Ht]].
    + destruct (OnDrawFrame_plane_calls w s Hres)
        as (colors & Hlen & Hmap & Hplanes).
      projections. rewrite Hplanes in Hheld |- *.
      set (loop := concat (zip_with _ _ colors)) in *.
      exists (events (frame_planes_open w s ++ frame_planes_size w s ++
                      loop ++ frame_planes_close w)),
             (events (frame_point_cloud w s)).
      split_and!; try done.
      * rewrite !events_app, Hbefore. by list_norm.
      * rewrite !events_app, !forallb_app.
        unfold loop. by rewrite plane_calls_are_plane_events.
      * unfold frame_point_cloud.
        by destruct (bool_decide (point_cloud_status w = _)).
      * intros _. split.
        -- exists colors. split_and!; [done|done|].
           rewrite !events_app. unfold loop.
           by rewrite events_plane_calls.
        -- unfold frame_point_cloud.
           by destruct (bool_decide (point_cloud_status w = _)).
    + rewrite Ht in Hheld |- *.
      exists (events (frame_planes_open w s ++ frame_planes_size w s ++
                      planes)), [].
      split_and!; try done.
      * rewrite !events_app, Hbefore, app_nil_r. by list_norm.
      * rewrite Hres. done.
Qed.

Lemma frame_order_witness :
  result_of (OnDrawFrame sample_frame ready_app) = Ok tt ∧
  held_after [] (events (trace_of (OnDrawFrame sample_frame ready_app)))
  = Some [].
Proof.
  assert (result_of (OnDrawFrame sample_frame ready_app) = Ok tt) as H
    by reflexivity.
  split; [exact H|].
  destruct (frame_order sample_frame ready_app)
    as (log & planes & cloud & _ & _ & _ & _ & _ & _ & _ & _ & _ & _ &
        held & Hh & Hok).
  rewrite Hh. f_equal. exact (Hok H).
Defined.

(** C5. A frame either stops before the point-cloud acquisition, and then
    makes no point-cloud call at all, or it returns; in a frame that returns,
    [ArFrame_acquirePointCloud] is the first point-cloud call, and it is
    followed by the draw of the acquired cloud and by its release when the
    status is [AR_SUCCESS], and by nothing when the status is anything else.
    Hence the cloud is drawn, and is released, if and only if the acquisition
    returned [AR_SUCCESS]. *)
Theorem point_cloud_drawn_iff_acquired (w : FrameSdk) (s : HelloArApplication) :
  let r := OnDrawFrame w s in
  let t := events (trace_of r) in
  let acquire := ArFrame_acquirePointCloud (ar_session_ s) (ar_frame_ s)
                   (point_cloud_status w) (point_cloud_out w) in
  let draw := point_cloud_renderer_Draw
                (mat4_mul (projection_matrix_out w) (view_matrix_out w))
                (ar_session_ s) (point_cloud_out w) in
  let release := ArPointCloud_release (point_cloud_out w) in
  (∃ before, forallb (λ e, negb (is_point_cloud_event e)) before = true ∧
     ((result_of r = Ok tt ∧ point_cloud_status w = AR_SUCCESS ∧
       t = before ++ [acquire; draw; release]) ∨
      (result_of r = Ok tt ∧ point_cloud_status w ≠ AR_SUCCESS ∧
       t = before ++ [acquire]) ∨
      (result_of r ≠ Ok tt ∧ t = before))) ∧
  (In acquire t → result_of r = Ok tt) ∧
  ((∃ mvp se cloud, In (point_cloud_renderer_Draw mvp se cloud) t) ↔
   In acquire t ∧ point_cloud_status w = AR_SUCCESS) ∧
  ((∃ cloud, In (ArPointCloud_release cloud) t) ↔
   In acquire t ∧ point_cloud_status w = AR_SUCCESS).
Proof.
  cbv zeta.
  set (t := events (trace_of (OnDrawFrame w s))).
  set (acquire := ArFrame_acquirePointCloud _ _ _ _).
  set (draw := point_cloud_renderer_Draw _ _ _).
  set (release := ArPointCloud_release _).
  assert (∃ before, forallb (λ e, negb (is_point_cloud_event e)) before = true ∧
     ((result_of (OnDrawFrame w s) = Ok tt ∧
       point_cloud_status w = AR_SUCCESS ∧
       t = before ++ [acquire; draw; release]) ∨
      (result_of (OnDrawFrame w s) = Ok tt ∧
       point_cloud_status w ≠ AR_SUCCESS ∧ t = before ++ [acquire]) ∨
      (result_of (OnDrawFrame w s) ≠ Ok tt ∧ t = before))) as Hshape.
  { assert (forallb (λ e, negb (is_point_cloud_event e))
              (events (frame_before_planes w s ++ frame_planes_open w s))
            = true) as Hbefore.
    { assert (forallb (λ e, negb (is_point_cloud_event e))
                (events (frame_andy w s)) = true) as Handy.
      { eapply forallb_impl; [|apply andy_events_are_andy_events].
        by intros []. }
      unfold frame_before_planes, frame_update, frame_light.
      rewrite !events_app, !forallb_app, Handy.
      by destruct (bool_decide (update_status w = _)),
                  (bool_decide (light_estimate_state_out w = _)). }
    subst t.
    destruct (OnDrawFrame_cases w s) as [[Hn Hr]|(Hn & planes & Hpost & Hr)].
    - rewrite Hr. projections. eexists. split; [exact Hbefore|].
      right. right. done.
    - destruct Hpost as [_ _ _ _ _ _ Hev _]. projections.
      apply (forallb_impl _ (λ e, negb (is_point_cloud_event e))) in Hev;
        [|by intros []].
      destruct Hr as [[Hres Ht]|[Hres Ht]]; rewrite Ht, Hres.
      + exists (events ((frame_before_planes w s ++ frame_planes_open w s) ++
                        frame_planes_size w s ++ planes ++
                        frame_planes_close w)).
        split.
        { rewrite events_app, forallb_app, Hbefore, !events_app, !forallb_app,
            Hev. done. }
        rewrite !app_assoc, events_app, <- !app_assoc.
        unfold frame_point_cloud.
        destruct (bool_decide (point_cloud_status w = AR_SUCCESS)) eqn:Hst.
        * left. apply bool_decide_eq_true in Hst. done.
        * right. left. apply bool_decide_eq_false in Hst. done.
      + eexists. split; [|right; right; done].
        rewrite events_app, forallb_app, Hbefore, !events_app, !forallb_app,
          Hev. done. }
  split; [exact Hshape|].
  destruct Hshape as (before & Hb & Hcases).
  assert (∀ e, is_point_cloud_event e = true → ¬ In e before) as Hnot.
  { intros e He Hin. rewrite forallb_forall in Hb. apply Hb in Hin.
    by rewrite He in Hin. }
  destruct Hcases as [(Hres & Hst & ->)|[(Hres & Hst & ->)|(Hres & ->)]].
  - split_and!; [done|split|split].
    + intros _. split; [|done]. apply in_app_iff. right. by left.
    + intros _. exists (mat4_mul (projection_matrix_out w) (view_matrix_out w)),
        (ar_session_ s), (point_cloud_out w).
      apply in_app_iff. right. right. by left.
    + intros _. split; [|done]. apply in_app_iff. right. by left.
    + intros _. exists (point_cloud_out w).
      apply in_app_iff. right. right. right. by left.
  - split_and!; [done|split|split]; try (by intros [_ H]).
    + intros (mvp & se & c & [H|H]%in_app_iff); [by apply Hnot in H|].
      by destruct H as [H|[]].
    + intros (c & [H|H]%in_app_iff); [by apply Hnot in H|].
      by destruct H as [H|[]].
  - split_and!; [|split|split]; try (by intros [H%Hnot _]).
    + by intros H%Hnot.
    + by intros (mvp & se & c & H%Hnot).
    + by intros (c & H%Hnot).
Qed.

Lemma point_cloud_drawn_iff_acquired_witness :
  In (ArFrame_acquirePointCloud 1%N 2%N AR_SUCCESS 13%N)
     (events (trace_of (OnDrawFrame sample_frame ready_app))) ∧
  result_of (OnDrawFrame sample_frame ready_app) = Ok tt.
Proof.
  assert (In (ArFrame_acquirePointCloud 1%N 2%N AR_SUCCESS 13%N)
             (events (trace_of (OnDrawFrame sample_frame ready_app)))) as H.
  { vm_compute. repeat (first [left; reflexivity | right]). }
  split; [exact H|].
  destruct (point_cloud_drawn_iff_acquired sample_frame ready_app)
    as (_ & Hreturns & _ & _).
  exact (Hreturns H).
Defined.

Lemma plane_loop_with_update_status st w P V pl n : ∀ i rands s,
  plane_loop (with_update_status st w) P V pl i n rands s =
  plane_loop w P V pl i n rands s.
Proof.
  induction n as [|n IH]; intros i rands s; [reflexivity|].
  cbn [plane_loop]. unfold bind.
  change (in_iteration i (plane_body (with_update_status st w) P V pl i rands) s)
    with (in_iteration i (plane_body w P V pl i rands) s).
  destruct (in_iteration _ _ _) as [[[rands'| |] s1] t1]; [|done..].
  by rewrite IH.
Qed.

(** C10. When [ArSession_update] returns a status other than [AR_SUCCESS],
    [OnDrawFrame] logs one error and goes on: what follows the log, starting
    with the camera acquisition on [ar_frame_] and the background draw, is
    call for call what the frame does when the update succeeds, with the same
    outcome and the same object at the end; in a frame that returns it runs
    through the plane calls and the point-cloud calls. *)
Theorem update_failure_only_logs (w : FrameSdk) (s : HelloArApplication) :
  update_status w ≠ AR_SUCCESS →
  let failed := OnDrawFrame w s in
  let succeeded := OnDrawFrame (with_update_status AR_SUCCESS w) s in
  ∃ rendering after_background,
    trace_of failed =
      frame_setup ++
      [ (None, ArSession_update (ar_session_ s) (ar_frame_ s)
                                (update_status w));
        (None, LOGE "HelloArApplication::OnDrawFrame ArSession_update error") ]
      ++ rendering ∧
    trace_of succeeded =
      frame_setup ++
      [ (None, ArSession_update (ar_session_ s) (ar_frame_ s) AR_SUCCESS) ]
      ++ rendering ∧
    rendering =
      [ (None, ArFrame_acquireCamera (ar_session_ s) (ar_frame_ s)
                                     (camera_out w));
        (None, ArCamera_getViewMatrix (ar_session_ s) (camera_out w)
                                      (view_matrix_out w));
        (None, ArCamera_getProjectionMatrix (ar_session_ s) (camera_out w)
                 (1 # 10) 100%Q (projection_matrix_out w));
        (None, ArCamera_release (camera_out w));
        (None, background_renderer_Draw (ar_session_ s) (ar_frame_ s)) ] ++
      frame_light w s ++ frame_andy w s ++ after_background ∧
    (result_of failed = Ok tt →
       ∃ planes,
         after_background =
           frame_planes_open w s ++ frame_planes_size w s ++ planes ++
           frame_planes_close w ++ frame_point_cloud w s) ∧
    result_of failed = result_of succeeded ∧
    object_of failed = object_of succeeded.
Proof.
  intros Hst. cbv zeta. rewrite !OnDrawFrame_run.
  change (plane_list_out (with_update_status AR_SUCCESS w))
    with (plane_list_out w).
  assert (frame_plane_loop (with_update_status AR_SUCCESS w) s =
          frame_plane_loop w s) as ->
    by apply plane_loop_with_update_status.
  assert (∀ tl, frame_before_planes w s ++ tl =
    frame_setup ++
    [ (None, ArSession_update (ar_session_ s) (ar_frame_ s) (update_status w));
      (None, LOGE "HelloArApplication::OnDrawFrame ArSession_update error") ]
    ++ frame_camera w s ++ frame_background s ++ frame_light w s ++
       frame_andy w s ++ tl) as Hfailed.
  { intros tl. unfold frame_before_planes, frame_update.
    rewrite bool_decide_eq_false_2 by done. by list_norm. }
  assert (∀ tl, frame_before_planes (with_update_status AR_SUCCESS w) s ++ tl =
    frame_setup ++
    [ (None, ArSession_update (ar_session_ s) (ar_frame_ s) AR_SUCCESS) ]
    ++ frame_camera w s ++ frame_background s ++ frame_light w s ++
       frame_andy w s ++ tl) as Hsucceeded.
  { intros tl. unfold frame_before_planes. by list_norm. }
  destruct (non_null (plane_list_out w)).
  - destruct (frame_plane_loop w s) as [[[[]| |] s1] planes]; projections;
      rewrite Hfailed, Hsucceeded; eexists _, _;
      (split_and!; [reflexivity|reflexivity|reflexivity| |done|done]);
      [|done..].
    intros _. by exists planes.
  - projections. rewrite Hfailed, Hsucceeded. eexists _, _.
    split_and!; [reflexivity|reflexivity|reflexivity|done|done|done].
Qed.

Lemma update_failure_only_logs_witness :
  update_status sample_frame ≠ AR_SUCCESS ∧
  result_of (OnDrawFrame sample_frame ready_app) =
  result_of (OnDrawFrame (with_update_status AR_SUCCESS sample_frame) ready_app).
Proof.
  assert (update_status sample_frame ≠ AR_SUCCESS) as H by discriminate.
  split; [exact H|].
  destruct (update_failure_only_logs sample_frame ready_app H)
    as (rendering & after_background & _ & _ & _ & _ & Hres & _).
  exact Hres.
Defined.

(** * Plane colours across frames *)


Lemma andy_events_no_plane_draws w se P V L objs :
  plane_draws (concat (map (andy_events w se P V L) objs)) = [].
Proof.
  induction objs as [|a objs IH]; [done|].
  cbn [map concat]. rewrite plane_draws_app, IH.
  unfold andy_events. by destruct (bool_decide _).
Qed.

Lemma frame_before_planes_no_plane_draws w s :
  plane_draws (frame_before_planes w s ++ frame_planes_open w s) = [].
Proof.
  unfold frame_before_planes, frame_update, frame_light, frame_andy.
  rewrite !plane_draws_app, andy_events_no_plane_draws.
  by destruct (bool_decide (update_status w = _)),
              (bool_decide (light_estimate_state_out w = _)).
Qed.









(** * Further properties *)

(** ** Decoding a palette entry *)

Lemma shifted_byte (v k m : Z) :
  0 ≤ k → k ≤ 24 → 0 ≤ v < 2 ^ 32 → 0 ≤ m < 256 →
  (v / 2 ^ k) mod 256 = m →
  Z.land (Z.shiftr (to_int32 v) k) 0xff = m.
Proof.
  intros Hk0 Hk Hv Hm Hbyte.
  change 0xff with (Z.ones 8). rewrite Z.land_ones by lia.
  rewrite Z.shiftr_div_pow2 by lia. change (2 ^ 8) with 256.
  unfold to_int32. rewrite (Z.mod_small v) by exact Hv.
  destruct (v <? 2 ^ 31); [exact Hbyte|].
  replace (v - 2 ^ 32) with (v + (- 2 ^ (32 - k)) * 2 ^ k).
  2:{ rewrite Z.mul_opp_l, <- Z.pow_add_r by lia.
      replace (32 - k + k) with 32 by lia. lia. }
  rewrite Z.div_add by (apply Z.pow_nonzero; lia).
  replace (- 2 ^ (32 - k)) with ((- 2 ^ (24 - k)) * 256).
  2:{ rewrite Z.mul_opp_l. change 256 with (2 ^ 8).
      rewrite <- Z.pow_add_r by lia. by replace (24 - k + 8) with (32 - k) by lia. }
  by rewrite Z_mod_plus_full.
Qed.

(** X1. For any four bytes, the colour made from the packed RGBA word has
    the red, green and blue bytes over 255 as its components: the alpha byte
    is dropped, and passing the word through [int32_t] does not disturb a red
    byte of 128 or more. *)
Theorem color_of_rgba_bytes (r g b a : Z) :
  is_byte r → is_byte g → is_byte b → is_byte a →
  color_of_rgba (rgba_of_bytes r g b a) =
  Vec3 (Qmake r 255) (Qmake g 255) (Qmake b 255).
Proof.
  unfold is_byte, rgba_of_bytes, color_of_rgba, color_channel.
  intros Hr Hg Hb Ha.
  set (v := r * 2 ^ 24 + g * 2 ^ 16 + b * 2 ^ 8 + a).
  assert (v = r * 16777216 + g * 65536 + b * 256 + a) as Hv' by reflexivity.
  assert (0 ≤ v < 2 ^ 32) as Hv by (change (2 ^ 32) with 4294967296; lia).
  rewrite (shifted_byte v 24 r), (shifted_byte v 16 g), (shifted_byte v 8 b);
    try done; try lia.
  - change (2 ^ 8) with 256. Z.div_mod_to_equations. lia.
  - change (2 ^ 16) with 65536. Z.div_mod_to_equations. lia.
  - change (2 ^ 24) with 16777216. Z.div_mod_to_equations. lia.
Qed.

Lemma color_of_rgba_bytes_witness :
  is_byte 244 ∧
  color_of_rgba (rgba_of_bytes 244 67 54 255) =
  Vec3 (Qmake 244 255) (Qmake 67 255) (Qmake 54 255).
Proof.
  assert (is_byte 244) as Hr by (unfold is_byte; lia).
  assert (is_byte 67) as Hg by (unfold is_byte; lia).
  assert (is_byte 54) as Hb by (unfold is_byte; lia).
  assert (is_byte 255) as Ha by (unfold is_byte; lia).
  split; [exact Hr|].
  exact (color_of_rgba_bytes 244 67 54 255 Hr Hg Hb Ha).
Defined.

(** ** What a frame does to the object and to the planes *)

Lemma plane_loop_draws w P V pl n : ∀ i rands s,
  result_of (plane_loop w P V pl i n rands s) = Ok tt →
  map fst (plane_draws (trace_of (plane_loop w P V pl i n rands s))) =
  map (plane_item w) (indices i n).
Proof.
  induction n as [|n IH]; intros i rands s; [done|].
  cbn [plane_loop indices map]. unfold bind at 1 2.
  destruct (plane_body_run w P V pl i rands s) as [c Hm|c Hm Hr|Hm Hr];
    [| |done].
  - specialize (IH (i + 1) rands s).
    destruct (plane_loop w P V pl (i + 1) n rands s) as [[r s'] t].
    projections. intros Hres.
    rewrite plane_draws_app, plane_draws_plane_events. cbn [app map fst].
    by rewrite IH.
  - set (s1 := set_plane_color_map_ _ s) in *.
    specialize (IH (i + 1) (S rands) s1).
    destruct (plane_loop w P V pl (i + 1) n (S rands) s1) as [[r s'] t].
    projections. intros Hres.
    rewrite plane_draws_app, plane_draws_plane_events. cbn [app map fst].
    by rewrite IH.
Qed.


Lemma plane_draws_of_frame w s r s1 planes :
  frame_plane_loop w s = (r, s1, planes) →
  non_null (plane_list_out w) = true →
  plane_draws (trace_of (OnDrawFrame w s)) = plane_draws planes.
Proof.
  intros Hloop Hn. rewrite OnDrawFrame_run, Hn, Hloop.
  destruct r as [[]| |]; projections;
    rewrite (app_assoc (frame_before_planes w s) (frame_planes_open w s)),
      (plane_draws_app (_ ++ _)), frame_before_planes_no_plane_draws,
      !plane_draws_app; [|done..].
  unfold frame_point_cloud.
  destruct (bool_decide (point_cloud_status w = _)); cbn;
    by rewrite app_nil_r.
Qed.

(** X2. [OnDrawFrame] writes only [plane_color_map_] and [plane_count_].
    When the plane list comes back null the frame aborts with the object as
    it was; otherwise [plane_count_] holds the size the SDK reported, whatever
    its sign. *)
Theorem OnDrawFrame_writes (w : FrameSdk) (s : HelloArApplication) :
  let r := OnDrawFrame w s in
  asset_manager_ (object_of r) = asset_manager_ s ∧
  ar_session_ (object_of r) = ar_session_ s ∧
  ar_frame_ (object_of r) = ar_frame_ s ∧
  tracked_obj_set_ (object_of r) = tracked_obj_set_ s ∧
  (plane_list_out w = nullptr → result_of r = CheckFailed ∧ object_of r = s) ∧
  (plane_list_out w ≠ nullptr →
     plane_count_ (object_of r) = plane_list_size_out w).
Proof.
  cbv zeta.
  destruct (OnDrawFrame_cases w s)
    as [[Hn ->]|(Hn & planes & [Ho _ _ _ _ _ _ _] & _)]; projections.
  - apply non_null_false in Hn. split_and!; try done.
  - apply non_null_true in Hn. rewrite Ho. split_and!; try done.
Qed.

Lemma OnDrawFrame_writes_witness :
  plane_list_out sample_frame ≠ nullptr ∧
  plane_count_ (object_of (OnDrawFrame sample_frame ready_app)) = 1.
Proof.
  assert (plane_list_out sample_frame ≠ nullptr) as H by discriminate.
  split; [exact H|].
  destruct (OnDrawFrame_writes sample_frame ready_app)
    as (_ & _ & _ & _ & _ & Hcount).
  exact (Hcount H).
Defined.

(** X3. A frame that returns draws every plane of the list exactly once, in
    list order: the planes of its [plane_renderer_.Draw] calls are items
    [0], [1], ... up to the reported size.  A reported size of zero or less
    gives no plane draw. *)
Theorem planes_drawn_once_in_order (w : FrameSdk) (s : HelloArApplication) :
  let r := OnDrawFrame w s in
  result_of r = Ok tt →
  map fst (plane_draws (trace_of r)) =
    map (plane_item w) (indices 0 (Z.to_nat (plane_list_size_out w))) ∧
  (plane_list_size_out w ≤ 0 → plane_draws (trace_of r) = []).
Proof.
  cbv zeta. intros Hres.
  assert (non_null (plane_list_out w) = true) as Hn.
  { destruct (non_null (plane_list_out w)) eqn:Hn; [done|].
    rewrite OnDrawFrame_run, Hn in Hres. done. }
  destruct (frame_plane_loop w s) as [[r s1] planes] eqn:Hloop.
  rewrite (plane_draws_of_frame w s r s1 planes Hloop Hn).
  assert (r = Ok tt) as ->.
  { rewrite OnDrawFrame_run, Hn, Hloop in Hres. by destruct r as [[]| |]. }
  pose proof (plane_loop_draws w (projection_matrix_out w) (view_matrix_out w)
                (plane_list_out w) (Z.to_nat (plane_list_size_out w)) 0 0
                (set_plane_count_ (plane_list_size_out w) s)) as Hdraws.
  unfold frame_plane_loop in Hloop. rewrite Hloop in Hdraws. projections.
  specialize (Hdraws eq_refl). split; [exact Hdraws|].
  intros Hsize. rewrite Z2Nat.nonpos in Hdraws by done.
  by destruct (plane_draws planes).
Qed.

Lemma planes_drawn_once_in_order_witness :
  result_of (OnDrawFrame sample_frame ready_app) = Ok tt ∧
  map fst (plane_draws (trace_of (OnDrawFrame sample_frame ready_app))) =
  map (plane_item sample_frame) (indices 0 1).
Proof.
  assert (result_of (OnDrawFrame sample_frame ready_app) = Ok tt) as H
    by reflexivity.
  split; [exact H|].
  exact (proj1 (planes_drawn_once_in_order sample_frame ready_app H)).
Defined.



(** ** What a tap does to the object *)

Lemma hit_loop_object w hl n : ∀ i0 s,
  object_of (hit_loop w hl i0 n s) =
  set_tracked_obj_set_ (tracked_obj_set_ (object_of (hit_loop w hl i0 n s))) s.
Proof.
  induction n as [|n IH]; intros i0 s.
  { cbn. by destruct s. }
  cbn [hit_loop]. erewrite run_bind_ok by apply hit_body_run.
  assert (after_hit (hit_item w i0) s =
          set_tracked_obj_set_
            (tracked_obj_set_ (after_hit (hit_item w i0) s)) s) as Hafter.
  { unfold after_hit. destruct (hit_places _); by destruct s. }
  destruct (hit_returns (hit_item w i0)).
  - unfold ret. projections. exact Hafter.
  - specialize (IH (i0 + 1) (after_hit (hit_item w i0) s)).
    destruct (hit_loop w hl (i0 + 1) n (after_hit (hit_item w i0) s))
      as [[r s'] t].
    projections. rewrite IH, Hafter. reflexivity.
Qed.

(** X5. [OnTouched] writes only [tracked_obj_set_], and only adds to it: an
    anchor held before the tap is still held after it.  The tap never ends
    with an array index out of bounds. *)
Theorem OnTouched_writes (w : TouchSdk) (x y : float)
    (s : HelloArApplication) :
  let r := OnTouched w x y s in
  object_of r = set_tracked_obj_set_ (tracked_obj_set_ (object_of r)) s ∧
  tracked_obj_set_ s ⊆ tracked_obj_set_ (object_of r) ∧
  result_of r ≠ OutOfBounds.
Proof.
  cbv zeta. rewrite OnTouched_run.
  destruct (_ && _); [|by destruct s].
  destruct (non_null (hit_result_list_out w)); [|by destruct s].
  pose proof (hit_loop_spec w (hit_result_list_out w)
                (Z.to_nat (hit_result_list_size_out w)) 0 s) as Hpost.
  pose proof (hit_loop_object w (hit_result_list_out w)
                (Z.to_nat (hit_result_list_size_out w)) 0 s) as Hobj.
  unfold touch_hit_loop.
  destruct (hit_loop _ _ _ _ _) as [[r s1] hits].
  destruct Hpost as [[c Hr] _ _ _ _ _ _ _ Hset]. projections. subst r.
  assert (tracked_obj_set_ s ⊆ tracked_obj_set_ s1) as Hsub.
  { intros a Ha. apply Hset. by left. }
  by destruct c.
Qed.

(** X6. A tap whose hit list is empty (a reported size of zero or less)
    creates the list, runs the hit test, reads the size and destroys the list;
    it makes no other call, leaves the object as it was and holds no reference
    when it returns. *)
Theorem OnTouched_empty_hit_list (w : TouchSdk) (x y : float)
    (s : HelloArApplication) :
  ar_frame_ s ≠ nullptr → ar_session_ s ≠ nullptr →
  hit_result_list_out w ≠ nullptr → hit_result_list_size_out w ≤ 0 →
  let r := OnTouched w x y s in
  result_of r = Ok tt ∧ object_of r = s ∧
  events (trace_of r) =
    [ ArHitResultList_create (ar_session_ s) (hit_result_list_out w);
      ArFrame_hitTest (ar_session_ s) (ar_frame_ s) x y
                      (hit_result_list_out w);
      ArHitResultList_getSize (ar_session_ s) (hit_result_list_out w)
                              (hit_result_list_size_out w);
      ArHitResultList_destroy (hit_result_list_out w) ] ∧
  held_after [] (events (trace_of r)) = Some [].
Proof.
  intros Hfr%non_null_true Hse%non_null_true Hhl Hsize. cbv zeta.
  rewrite OnTouched_run, Hfr, Hse. cbn [andb].
  pose proof Hhl as Hhl'%non_null_true. rewrite Hhl'.
  unfold touch_hit_loop. rewrite Z2Nat.nonpos by done. cbn [hit_loop].
  unfold ret. projections. split_and!; try done.
  cbn. unfold is_null. cbn [snd]. unfold non_null in Hhl'.
  apply negb_true_iff in Hhl'. rewrite Hhl'. by rewrite remove_one_head.
Qed.

Lemma OnTouched_empty_hit_list_witness :
  ar_frame_ ready_app ≠ nullptr ∧ ar_session_ ready_app ≠ nullptr ∧
  hit_result_list_out no_hits ≠ nullptr ∧
  hit_result_list_size_out no_hits ≤ 0 ∧
  object_of (OnTouched no_hits 0%Q 0%Q ready_app) = ready_app.
Proof.
  assert (ar_frame_ ready_app ≠ nullptr) as H1 by discriminate.
  assert (ar_session_ ready_app ≠ nullptr) as H2 by discriminate.
  assert (hit_result_list_out no_hits ≠ nullptr) as H3 by discriminate.
  assert (hit_result_list_size_out no_hits ≤ 0) as H4 by (cbn; lia).
  split_and!; [exact H1|exact H2|exact H3|exact H4|].
  exact (proj1 (proj2 (OnTouched_empty_hit_list no_hits 0%Q 0%Q ready_app
                         H1 H2 H3 H4))).
Defined.

(** ** Which hit results a tap examines *)

(** X7. The hit loop examines hit result [i] exactly when [i] is within the
    reported size and no earlier iteration ended in [return] (a null hit
    result, or a failed [ArHitResult_acquireNewAnchor] on a plane hit inside
    the polygon).  So an anchor is placed for hit result [i] exactly when the
    loop gets that far and the hit is on a plane, inside its polygon, with an
    anchor acquired with [AR_SUCCESS] and reported tracking; after an early
    [return] no later hit places an anchor, whatever the SDK would answer for
    it. *)
Theorem hits_examined_until_return (w : TouchSdk) (x y : float)
    (s : HelloArApplication) :
  ar_frame_ s ≠ nullptr → ar_session_ s ≠ nullptr →
  hit_result_list_out w ≠ nullptr →
  let t := trace_of (OnTouched w x y s) in
  let n := Z.to_nat (hit_result_list_size_out w) in
  ∀ i,
    (reached w 0 n i →
       iteration i t =
       hit_events (ar_session_ s) (hit_result_list_out w) i (hit_item w i)) ∧
    (¬ reached w 0 n i → iteration i t = []) ∧
    (∀ a, In (tracked_obj_set_insert a) (iteration i t) ↔
          reached w 0 n i ∧ hit_places (hit_item w i) = true ∧
          a = new_anchor_out (hit_item w i)).
Proof.
  intros Hfr%non_null_true Hse%non_null_true Hhl%non_null_true. cbv zeta.
  intros i. rewrite OnTouched_run, Hfr, Hse, Hhl. cbn [andb].
  pose proof (hit_loop_reached w (hit_result_list_out w)
                (Z.to_nat (hit_result_list_size_out w)) 0 s i) as Hreach.
  pose proof (hit_loop_spec w (hit_result_list_out w)
                (Z.to_nat (hit_result_list_size_out w)) 0 s) as Hpost.
  cbv zeta in Hreach. unfold touch_hit_loop.
  destruct (hit_loop _ _ _ _ _) as [[r s1] hits].
  destruct Hpost as [[c Hr] _ _ _ _ _ _ _ _]. projections. subst r.
  assert (iteration i (trace_of
            (match c with
             | Next =>
                 (Ok tt, s1,
                  touch_open w x y s ++ hits ++
                  [ (None, ArHitResultList_destroy (hit_result_list_out w)) ])
             | Return => (Ok tt, s1, touch_open w x y s ++ hits)
             end)) = iteration i hits) as Hit.
  { destruct c; projections; rewrite !iteration_app;
      change (iteration i (touch_open w x y s)) with (@nil Event);
      [|done].
    change (iteration i [ (None, ArHitResultList_destroy _) ])
      with (@nil Event).
    by rewrite app_nil_r. }
  unfold trace_of in Hit. rewrite Hit.
  destruct Hreach as [Hin Hback]. split_and!; [done| |].
  - intros Hn. destruct (iteration i hits) as [|e l] eqn:Hnil; [done|].
    destruct Hn. by apply Hback.
  - intros a. split.
    + intros Ha.
      assert (reached w 0 (Z.to_nat (hit_result_list_size_out w)) i) as Hre.
      { apply Hback. intros Hnil. by rewrite Hnil in Ha. }
      rewrite (Hin Hre) in Ha. apply hit_events_insert in Ha as [Hp ->].
      done.
    + intros (Hre & Hp & ->). rewrite (Hin Hre). by apply hit_events_insert.
Qed.

(** ** What a tap still holds when it returns *)

Lemma remove_one_other r r' live :
  r ≠ r' → remove_one r (r' :: live) = cons r' <$> remove_one r live.
Proof. intros H. cbn. by rewrite decide_False. Qed.

Lemma held_after_hit_events live se hl i h :
  held_after live (hit_events se hl i h) = Some (left_by_hit h ++ live).
Proof.
  unfold left_by_hit. hit_cases h;
    first [ apply bool_decide_eq_true in Hanchor; rewrite ?Hanchor
          | apply bool_decide_eq_false in Hanchor;
            destruct (new_anchor_status h) as [|code]; [done|] ];
    cbn [held_after acquired released fed forallb];
    unfold non_null, is_null, nullptr in *; cbn [snd] in *;
    (destruct (N.eqb (hit_result_out h) 0) eqn:Hhr; try discriminate Hhit);
    cbn [negb app];
    try reflexivity;
    destruct (N.eqb (hit_trackable_out h) 0) eqn:Htr;
    destruct (N.eqb (hit_pose_out h) 0) eqn:Hpo;
    destruct (N.eqb (new_anchor_out h) 0) eqn:Han;
    repeat (first [ rewrite Hhr
                  | rewrite remove_one_head
                  | rewrite remove_one_other by discriminate
                  | progress cbn [negb app fmap option_fmap option_map] ]);
    reflexivity.
Qed.

Lemma remove_one_after r extra live :
  (∀ r', r' ∈ extra → r' ≠ r) →
  remove_one r (extra ++ r :: live) = Some (extra ++ live).
Proof.
  induction extra as [|e extra IH]; intros Hne.
  - apply remove_one_head.
  - cbn [app]. rewrite remove_one_other.
    + rewrite IH; [done|]. intros r' Hr'. apply Hne. by right.
    + intros ->. by apply (Hne e); [left|].
Qed.

Lemma retained_app t1 t2 : retained (t1 ++ t2) = retained t1 ++ retained t2.
Proof. apply omap_app. Qed.

Lemma left_by_hit_kinds se hl i h r :
  r ∈ left_by_hit h →
  r.1 = KHitResult ∨ (r.1 = KAnchor ∧ r ∈ retained (hit_events se hl i h)).
Proof.
  unfold left_by_hit.
  destruct (non_null (hit_result_out h)); cbn [negb];
    [|by intros ?%elem_of_nil].
  destruct (hit_places h) eqn:Hp.
  - destruct (hit_events_placed se hl i h Hp) as [-> _].
    destruct (non_null (new_anchor_out h)); [|by intros ?%elem_of_nil].
    intros ->%list_elem_of_singleton. right. split; [done|].
    cbn. by left.
  - intros ->%list_elem_of_singleton. by left.
Qed.

Lemma hit_loop_held w hl n : ∀ i0 s live,
  let t := events (trace_of (hit_loop w hl i0 n s)) in
  ∃ extra, held_after live t = Some (extra ++ live) ∧
           ∀ r, r ∈ extra →
                r.1 = KHitResult ∨ (r.1 = KAnchor ∧ r ∈ retained t).
Proof.
  induction n as [|n IH]; intros i0 s live; cbv zeta.
  { exists []. split; [done|]. by intros r ?%elem_of_nil. }
  cbn [hit_loop]. erewrite run_bind_ok by apply hit_body_run.
  pose proof (after_hit_fields (hit_item w i0) s) as (Hse & _).
  pose proof (held_after_hit_events live (ar_session_ s) hl i0 (hit_item w i0))
    as Hfirst.
  pose proof (left_by_hit_kinds (ar_session_ s) hl i0 (hit_item w i0))
    as Hkinds.
  destruct (hit_returns (hit_item w i0)).
  - unfold ret. projections. rewrite app_nil_r, events_tagged.
    exists (left_by_hit (hit_item w i0)). split; [done|]. exact Hkinds.
  - specialize (IH (i0 + 1) (after_hit (hit_item w i0) s)
                  (left_by_hit (hit_item w i0) ++ live)).
    cbv zeta in IH.
    destruct (hit_loop w hl (i0 + 1) n (after_hit (hit_item w i0) s))
      as [[r s'] t].
    projections. destruct IH as (extra & Hheld & Hextra).
    exists (extra ++ left_by_hit (hit_item w i0)).
    rewrite events_app, events_tagged, held_after_app, Hfirst.
    cbn [mbind option_bind]. rewrite Hheld, <- app_assoc.
    split; [done|].
    intros r' [Hr|Hr]%elem_of_app; rewrite retained_app, elem_of_app.
    + destruct (Hextra r' Hr) as [H|[H1 H2]]; auto.
    + destruct (Hkinds r' Hr) as [H|[H1 H2]]; auto.
Qed.

(** X8. Replaying any tap, no reference is given back that is not held, and
    what is still held when the tap is over is of three kinds only: hit
    results, the hit list, and anchors that were handed to
    [tracked_obj_set_].  Every trackable and every pose acquired during the
    tap has been given back, and so has every anchor that was not kept. *)
Theorem touch_leaves_only_hits_and_kept_anchors (w : TouchSdk) (x y : float)
    (s : HelloArApplication) :
  let t := events (trace_of (OnTouched w x y s)) in
  ∃ held, held_after [] t = Some held ∧
          ∀ r, r ∈ held → outlives_touch t r.
Proof.
  cbv zeta. unfold outlives_touch. rewrite OnTouched_run.
  destruct (_ && _); [|exists []; split; [done|by intros r ?%elem_of_nil] ].
  destruct (non_null (hit_result_list_out w)) eqn:Hhl.
  2:{ exists []. split; [|by intros r ?%elem_of_nil].
      projections. cbn. unfold is_null. cbn [snd].
      unfold non_null in Hhl. apply negb_false_iff in Hhl. by rewrite Hhl. }
  pose proof (hit_loop_spec w (hit_result_list_out w)
                (Z.to_nat (hit_result_list_size_out w)) 0 s) as Hpost.
  pose proof (hit_loop_held w (hit_result_list_out w)
                (Z.to_nat (hit_result_list_size_out w)) 0 s
                [(KHitResultList, hit_result_list_out w)]) as Hheld.
  cbv zeta in Hheld. unfold touch_hit_loop.
  destruct (hit_loop _ _ _ _ _) as [[r s1] hits].
  destruct Hpost as [[c Hr] _ _ _ _ _ _ _ _]. projections. subst r.
  destruct Hheld as (extra & Hheld & Hextra).
  assert (held_after [] (events (touch_open w x y s)) =
          Some [(KHitResultList, hit_result_list_out w)]) as Hopen.
  { cbn. unfold is_null. cbn [snd]. unfold non_null in Hhl.
    apply negb_true_iff in Hhl. by rewrite Hhl. }
  assert (∀ tl, retained tl = [] →
            retained (events (touch_open w x y s) ++ events hits ++ tl) =
            retained (events hits)) as Hret.
  { intros tl Htl. rewrite !retained_app, Htl. cbn. by rewrite app_nil_r. }
  destruct c; projections.
  - exists extra. rewrite !events_app.
    rewrite (Hret (events [ (None, ArHitResultList_destroy _) ]) eq_refl).
    rewrite held_after_app, Hopen. cbn [mbind option_bind].
    rewrite held_after_app, Hheld. cbn [mbind option_bind].
    split.
    + cbn. unfold is_null. cbn [snd]. unfold non_null in Hhl.
      apply negb_true_iff in Hhl. rewrite Hhl.
      rewrite remove_one_after; [by rewrite app_nil_r|].
      intros r' Hr' ->. by destruct (Hextra _ Hr') as [H|[H _]].
    + intros r' Hr'.
      destruct (Hextra r' Hr') as [H|[H1 H2]]; auto.
  - exists (extra ++ [(KHitResultList, hit_result_list_out w)]).
    rewrite events_app. specialize (Hret [] eq_refl).
    rewrite app_nil_r in Hret. rewrite Hret.
    rewrite held_after_app, Hopen. cbn [mbind option_bind].
    split; [exact Hheld|].
    intros r' [Hr'|Hr']%elem_of_app.
    + destruct (Hextra r' Hr') as [H|[H1 H2]]; auto.
    + apply list_elem_of_singleton in Hr' as ->. auto.
Qed.

Lemma hits_examined_until_return_witness :
  ar_frame_ ready_app ≠ nullptr ∧ ar_session_ ready_app ≠ nullptr ∧
  hit_result_list_out two_plane_hits ≠ nullptr ∧
  (In (tracked_obj_set_insert 82%N)
      (iteration 1 (trace_of (OnTouched two_plane_hits 0%Q 0%Q ready_app))) ↔
   reached two_plane_hits 0 2 1 ∧
   hit_places (hit_item two_plane_hits 1) = true ∧
   82%N = new_anchor_out (hit_item two_plane_hits 1)).
Proof.
  assert (ar_frame_ ready_app ≠ nullptr) as H1 by discriminate.
  assert (ar_session_ ready_app ≠ nullptr) as H2 by discriminate.
  assert (hit_result_list_out two_plane_hits ≠ nullptr) as H3 by discriminate.
  split_and!; [exact H1|exact H2|exact H3|].
  exact (proj2 (proj2 (hits_examined_until_return two_plane_hits 0%Q 0%Q
                         ready_app H1 H2 H3 1)) 82%N).
Defined.

(** ** The object over its life *)

Lemma OnDrawFrame_fields w s :
  asset_manager_ (object_of (OnDrawFrame w s)) = asset_manager_ s ∧
  ar_session_ (object_of (OnDrawFrame w s)) = ar_session_ s ∧
  ar_frame_ (object_of (OnDrawFrame w s)) = ar_frame_ s ∧
  tracked_obj_set_ (object_of (OnDrawFrame w s)) = tracked_obj_set_ s.
Proof.
  destruct (OnDrawFrame_cases w s)
    as [[Hn ->]|(Hn & planes & [Ho _ _ _ _ _ _ _] & _)]; projections;
    [done|]. by rewrite Ho.
Qed.

Lemma OnTouched_fields w x y s :
  asset_manager_ (object_of (OnTouched w x y s)) = asset_manager_ s ∧
  ar_session_ (object_of (OnTouched w x y s)) = ar_session_ s ∧
  ar_frame_ (object_of (OnTouched w x y s)) = ar_frame_ s ∧
  tracked_obj_set_ s ⊆ tracked_obj_set_ (object_of (OnTouched w x y s)).
Proof.
  rewrite OnTouched_run.
  destruct (_ && _); [|done].
  destruct (non_null (hit_result_list_out w)); [|done].
  pose proof (hit_loop_spec w (hit_result_list_out w)
                (Z.to_nat (hit_result_list_size_out w)) 0 s) as Hpost.
  pose proof (hit_loop_object w (hit_result_list_out w)
                (Z.to_nat (hit_result_list_size_out w)) 0 s) as Hobj.
  unfold touch_hit_loop.
  destruct (hit_loop _ _ _ _ _) as [[r s1] hits].
  destruct Hpost as [[c Hr] _ _ _ _ _ _ _ Hset]. projections. subst r.
  assert (tracked_obj_set_ s ⊆ tracked_obj_set_ s1) as Hsub.
  { intros a Ha. apply Hset. by left. }
  destruct c; projections; by rewrite Hobj.
Qed.

Lemma invoke_fields c s :
  asset_manager_ (object_of (invoke c s)) = asset_manager_ s ∧
  ar_session_ (object_of (invoke c s)) = ar_session_ s ∧
  ar_frame_ (object_of (invoke c s)) = ar_frame_ s ∧
  tracked_obj_set_ s ⊆ tracked_obj_set_ (object_of (invoke c s)).
Proof.
  destruct c; cbn [invoke].
  - done.
  - unfold OnResume. rewrite !run_call, run_this, run_call.
    by destruct (bool_decide _).
  - done.
  - done.
  - destruct (OnDrawFrame_fields w s) as (? & ? & ? & Hset).
    by rewrite Hset.
  - apply OnTouched_fields.
Qed.

(** X9. Over any sequence of calls on the object, the asset manager, the
    session pointer and the frame pointer stay what they were, and
    [tracked_obj_set_] only grows: no member function takes an anchor out of
    the set, so every marker placed stays for the life of the object. *)
Theorem members_over_a_run (calls : list Invocation) (s : HelloArApplication)
    (k : nat) (sk : HelloArApplication) (tk : Trace) :
  run calls s !! k = Some (sk, tk) →
  asset_manager_ sk = asset_manager_ s ∧ ar_session_ sk = ar_session_ s ∧
  ar_frame_ sk = ar_frame_ s ∧ tracked_obj_set_ s ⊆ tracked_obj_set_ sk.
Proof.
  revert s k. induction calls as [|c calls IH]; intros s k Hk; [done|].
  cbn [run] in Hk. pose proof (invoke_fields c s) as (Ham & Hse & Hfr & Hset).
  destruct (invoke c s) as [[r s1] t1]. projections.
  destruct k as [|k].
  - assert ((s1, t1) = (sk, tk)) as Heq
      by (destruct r; cbn in Hk; congruence).
    injection Heq as <- <-. done.
  - destruct r; [|done..]. cbn in Hk.
    destruct (IH s1 k Hk) as (Ham' & Hse' & Hfr' & Hset').
    split_and!; [congruence..|by etrans].
Qed.

Lemma members_over_a_run_witness :
  ∃ sk tk,
    run [DoTouched two_plane_hits 0%Q 0%Q; DoDrawFrame sample_frame;
         DoPause] ready_app !! 2%nat = Some (sk, tk) ∧
    ar_session_ sk = ar_session_ ready_app ∧
    tracked_obj_set_ ready_app ⊆ tracked_obj_set_ sk.
Proof.
  destruct (run [DoTouched two_plane_hits 0%Q 0%Q; DoDrawFrame sample_frame;
                 DoPause] ready_app !! 2%nat) as [[sk tk]|] eqn:Hk;
    [|vm_compute in Hk; discriminate Hk].
  exists sk, tk. split; [reflexivity|].
  destruct (members_over_a_run _ ready_app 2 sk tk Hk) as (_ & Hse & _ & Hset).
  split; [exact Hse|exact Hset].
Defined.

(** X10. A call on the constructed object ends in a failed [CHECK] in
    exactly three situations: [OnResume] when [ArSession_resume] does not
    return [AR_SUCCESS], [OnDrawFrame] when the plane list comes back null,
    and [OnTouched], with session and frame present, when the hit list comes
    back null.  [OnPause], [OnSurfaceCreated] and [OnDisplayGeometryChanged]
    never abort. *)
Theorem abort_conditions (c : Invocation) (s : HelloArApplication) :
  result_of (invoke c s) = CheckFailed ↔ aborts c s.
Proof.
  destruct c; cbn [invoke aborts].
  - done.
  - unfold OnResume. rewrite !run_call, run_this, run_call.
    destruct (bool_decide (resume_status = AR_SUCCESS)) eqn:Hst; projections.
    + apply bool_decide_eq_true in Hst. done.
    + apply bool_decide_eq_false in Hst. done.
  - done.
  - done.
  - destruct (OnDrawFrame_cases w s)
      as [[Hn ->]|(Hn & planes & _ & [[Hr _]|[Hr _]])]; projections.
    + apply non_null_false in Hn. done.
    + apply non_null_true in Hn. by rewrite Hr.
    + apply non_null_true in Hn. by rewrite Hr.
  - rewrite OnTouched_run.
    destruct (non_null (ar_frame_ s)) eqn:Hfr;
      destruct (non_null (ar_session_ s)) eqn:Hse; cbn [andb];
      try (apply non_null_false in Hfr); try (apply non_null_false in Hse);
      try (projections; split; [done|tauto]).
    apply non_null_true in Hfr, Hse.
    destruct (non_null (hit_result_list_out w)) eqn:Hhl.
    + apply non_null_true in Hhl.
      pose proof (hit_loop_spec w (hit_result_list_out w)
                    (Z.to_nat (hit_result_list_size_out w)) 0 s) as Hpost.
      unfold touch_hit_loop.
      destruct (hit_loop _ _ _ _ _) as [[r s1] hits].
      destruct Hpost as [[c Hr] _ _ _ _ _ _ _ _]. projections. subst r.
      destruct c; projections; (split; [done|tauto]).
    + apply non_null_false in Hhl. projections. done.
Qed.

(** ** The constructor's configuration *)

(** X11. Replaying the constructor, the configuration object it creates has
    been destroyed whenever the constructor returns; nothing is destroyed
    that was not created. *)
Theorem constructor_destroys_config (w : CreateSdk)
    (asset_manager env context : ptr) :
  let r := HelloArApplication_new w asset_manager env context in
  ∃ held, held_after [] (events (trace_of r)) = Some held ∧
          (result_of r = Ok tt → held = []).
Proof.
  unfold HelloArApplication_new, constructor_body. cbv zeta.
  rewrite !run_call, run_assign.
  destruct (bool_decide (session_create_status w = AR_SUCCESS));
    [rewrite run_CHECK_true|rewrite run_CHECK_false; by eexists].
  rewrite run_this. cbn [ar_session_ set_ar_session_].
  destruct (non_null (session_create_out w));
    [rewrite run_CHECK_true|rewrite run_CHECK_false; by eexists].
  rewrite run_call.
  destruct (non_null (config_create_out w)) eqn:Hcfg;
    [rewrite run_CHECK_true|rewrite run_CHECK_false].
  2:{ projections. cbn. unfold is_null. cbn [snd].
      unfold non_null in Hcfg. apply negb_false_iff in Hcfg. rewrite Hcfg.
      by eexists. }
  unfold non_null in Hcfg. apply negb_true_iff in Hcfg.
  rewrite run_call.
  destruct (bool_decide (check_supported_status w = AR_SUCCESS));
    [rewrite run_CHECK_true|rewrite run_CHECK_false].
  2:{ projections. cbn. unfold is_null. cbn [snd]. rewrite Hcfg.
      by eexists. }
  rewrite run_call.
  destruct (bool_decide (configure_status w = AR_SUCCESS));
    [rewrite run_CHECK_true|rewrite run_CHECK_false].
  2:{ projections. cbn. unfold is_null. cbn [snd]. rewrite Hcfg.
      by eexists. }
  rewrite !run_call, run_assign, run_this.
  exists []. unfold CHECK. destruct (non_null _); projections;
    (split; [|done]);
    cbn; unfold is_null; cbn [snd]; rewrite Hcfg;
    by rewrite remove_one_head.
Qed.

(** ** From a tap to the next frame *)

(** X12. An anchor placed by a tap is taken up by the next frame: on the
    object the tap leaves, [OnDrawFrame] queries the tracking state of that
    anchor, and draws Andy with the anchor's transform as model matrix when
    the state is [AR_TRACKING_STATE_TRACKING]. *)
Theorem placed_anchor_is_drawn (w : TouchSdk) (x y : float)
    (s : HelloArApplication) (w' : FrameSdk) (i : Z) (a : ptr) :
  ar_session_ s ≠ nullptr → ar_frame_ s ≠ nullptr →
  In (tracked_obj_set_insert a) (iteration i (trace_of (OnTouched w x y s))) →
  let t := trace_of (OnDrawFrame w' (object_of (OnTouched w x y s))) in
  In (a, anchor_tracking_state w' a) (anchor_queries t) ∧
  (anchor_tracking_state w' a = AR_TRACKING_STATE_TRACKING →
   In (projection_matrix_out w', view_matrix_out w', anchor_transform w' a,
       frame_light_intensity w') (andy_draws t)).
Proof.
  intros Hse%non_null_true Hfr%non_null_true Hins. cbv zeta.
  assert (a ∈ tracked_obj_set_ (object_of (OnTouched w x y s))) as Ha.
  { revert Hins. rewrite OnTouched_run, Hse, Hfr. cbn [andb].
    destruct (non_null (hit_result_list_out w)); [|by projections].
    pose proof (hit_loop_spec w (hit_result_list_out w)
                  (Z.to_nat (hit_result_list_size_out w)) 0 s) as Hpost.
    unfold touch_hit_loop.
    destruct (hit_loop _ _ _ _ _) as [[r s1] hits].
    destruct Hpost as [[c Hr] _ _ _ _ _ _ _ Hset]. projections. subst r.
    destruct c; projections; rewrite !iteration_app;
      change (iteration i (touch_open w x y s)) with (@nil Event);
      cbn [app]; intros Hins; apply Hset; right; exists i; [|done].
    change (iteration i [ (None, ArHitResultList_destroy _) ])
      with (@nil Event) in Hins. by rewrite app_nil_r in Hins. }
  destruct (OnDrawFrame_andy_calls w' (object_of (OnTouched w x y s)))
    as [-> ->].
  apply elem_of_elements in Ha.
  rewrite <- (tracked_obj_visit_once w') in Ha.
  apply list_elem_of_In in Ha as Hel.
  split.
  - apply in_map_iff. by exists a.
  - intros Htr. apply in_map_iff. exists a. split; [done|].
    apply list_elem_of_In, list_elem_of_filter. split; [done|].
    by apply list_elem_of_In.
Qed.

Lemma placed_anchor_is_drawn_witness :
  ar_session_ ready_app ≠ nullptr ∧ ar_frame_ ready_app ≠ nullptr ∧
  In (tracked_obj_set_insert 81%N)
     (iteration 0 (trace_of (OnTouched two_plane_hits 0%Q 0%Q ready_app))) ∧
  In (81%N, anchor_tracking_state sample_frame 81%N)
     (anchor_queries
        (trace_of (OnDrawFrame sample_frame
           (object_of (OnTouched two_plane_hits 0%Q 0%Q ready_app))))).
Proof.
  assert (ar_session_ ready_app ≠ nullptr) as H1 by discriminate.
  assert (ar_frame_ ready_app ≠ nullptr) as H2 by discriminate.
  assert (In (tracked_obj_set_insert 81%N)
             (iteration 0 (trace_of
                (OnTouched two_plane_hits 0%Q 0%Q ready_app)))) as H3.
  { vm_compute. repeat (first [left; reflexivity | right]). }
  split_and!; [exact H1|exact H2|exact H3|].
  exact (proj1 (placed_anchor_is_drawn two_plane_hits 0%Q 0%Q ready_app
                  sample_frame 0 81%N H1 H2 H3)).
Defined.

Lemma touch_leaves_only_hits_and_kept_anchors_witness :
  ∃ held,
    held_after [] (events (trace_of
      (OnTouched two_plane_hits 0%Q 0%Q ready_app))) = Some held ∧
    ∀ r, r ∈ held →
         outlives_touch
           (events (trace_of (OnTouched two_plane_hits 0%Q 0%Q ready_app))) r.
Proof.
  exact (touch_leaves_only_hits_and_kept_anchors two_plane_hits 0%Q 0%Q
           ready_app).
Defined.

Lemma constructor_destroys_config_witness :
  result_of (HelloArApplication_new good_create 9%N 7%N 8%N) = Ok tt ∧
  held_after [] (events (trace_of
    (HelloArApplication_new good_create 9%N 7%N 8%N))) = Some [].
Proof.
  assert (result_of (HelloArApplication_new good_create 9%N 7%N 8%N) = Ok tt)
    as H by reflexivity.
  split; [exact H|].
  destruct (constructor_destroys_config good_create 9%N 7%N 8%N)
    as (held & Hh & Hok).
  rewrite Hh. f_equal. exact (Hok H).
Defined.
